(** * Entitlement pipeline of the gated file-distribution bots

    A shallow embedding of the verification-token, user-entitlement and
    delivery code of the repository, and the properties of its
    specification that concern them.

    Conventions of the embedding.
    - A naive [datetime] is the integer number of microseconds since
      1970-01-01T00:00:00 (its resolution); a [timedelta] is a number of
      microseconds.  [timedelta.total_seconds() < n] for an integer [n] is
      the comparison of the microseconds with [n * 10^6].
    - One request reads the clock at one instant [now].
    - The store keeps a datetime in milliseconds (BSON): every datetime
      the driver sends, in a document or in a filter, loses what is below
      the millisecond ([Datetime.bson]); the code compares what it reads
      back with its own clock, which has microseconds.
    - [database/operations/verification.py] awaits its collection calls,
      and each of them denotes its MongoDB operation.
      [database/operations/users.py], [files.py] and [settings.py] do not
      await theirs: such a call hands the operation to the driver's
      executor, which carries it out, and evaluates to a Future (section
      "Calls that are not awaited").  A write that is not awaited is
      applied where the call stands in the program.
    - A collection is a finite map from [user_id], [token_id], [post_no]
      or [setting_key] to the document: the store holds at most one
      document per key.  The code inserts no user, file or setting (the
      existence guards of [create_user], [add_file] and [set_setting]
      stop before the insert).  A token is inserted under an id drawn by
      [secrets.token_urlsafe]; a draw that repeats a stored id, which no
      index of the running system excludes ([create_indexes] is never
      run), is outside the model, and the statements about minting take
      the drawn id to be new.
    - The chat gateway and the shortlink provider are inputs of the
      handlers: what they answered or whether they raised. *)

From Stdlib Require Import ZArith String List Bool Lia.
From stdpp Require Import base option gmap strings list fin_maps.

Local Open Scope Z_scope.
Local Open Scope string_scope.

(** ** datetime and timedelta *)

Module Datetime.

Definition datetime := Z.
Definition timedelta := Z.

Definition microseconds_per_second : Z := 1000000.

Definition seconds (n : Z) : timedelta := n * microseconds_per_second.
Definition hours (n : Z) : timedelta := n * 3600 * microseconds_per_second.

(** [datetime.min] = 0001-01-01T00:00:00 and
    [datetime.max] = 9999-12-31T23:59:59.999999. *)
Definition datetime_min : datetime := -62135596800000000.
Definition datetime_max : datetime := 253402300799999999.

(** [d + delta]; [None] stands for the [OverflowError] Python raises when
    the sum (or the timedelta itself) leaves the representable range. *)
Definition add (d : datetime) (delta : timedelta) : option datetime :=
  if bool_decide (datetime_min <= d + delta <= datetime_max)
  then Some (d + delta) else None.

(** [(a - b).total_seconds() < n] *)
Definition elapsed_lt (a b : datetime) (n : Z) : bool :=
  bool_decide (a - b < seconds n).

(** What the store keeps of a datetime: BSON counts milliseconds, and the
    driver drops the microseconds below the millisecond when it encodes
    a datetime ([seconds * 1000 + microsecond // 1000]). *)
Definition bson (d : datetime) : datetime := d - d mod 1000.

End Datetime.

(** ** Documents of the collections *)

(** [users_verification] (see [create_user], [UserVerificationModel]). *)
Module User.
Record doc := mk {
  user_id : Z;
  username : option string;
  first_name : option string;
  is_verified : bool;
  verified_at : option Z;
  expires_at : option Z;
  files_accessed_count : Z;
  files_accessed : list Z;
  last_access : Z;
  created_at : Z;
  updated_at : option Z;
  verified_by : option Z
}.
#[global] Instance doc_eq_dec : EqDecision doc.
Proof. solve_decision. Defined.
End User.

(** Token states: the comment of [create_verification_token] lists
    [pending, in_progress, completed, expired]. *)
Inductive token_status := pending | in_progress | completed | expired.

#[global] Instance token_status_eq_dec : EqDecision token_status.
Proof. solve_decision. Defined.

(** [verification_tokens]. *)
Module Token.
Record doc := mk {
  token_id : string;
  user_id : Z;
  status : token_status;
  created_at : Z;
  expires_at : Z;
  completed_at : option Z;
  updated_at : Z
}.
#[global] Instance doc_eq_dec : EqDecision doc.
Proof. solve_decision. Defined.
End Token.

(** [files] (see [add_file]). *)
Module File.
Record doc := mk {
  post_no : Z;
  context : string;
  extra_message : string;
  file_id : string;
  file_name : string;
  storage_message_id : Z;
  public_message_id : Z;
  password : string;
  download_count : Z;
  created_by : Z;
  created_at : Z;
  last_downloaded_at : option Z
}.
#[global] Instance doc_eq_dec : EqDecision doc.
Proof. solve_decision. Defined.
End File.

(** The database: one finite map per collection, from the field its
    queries select on ([user_id], [token_id], [post_no], [setting_key])
    to the document. *)
Record db := mkdb {
  users_verification : gmap Z User.doc;
  verification_tokens : gmap string Token.doc;
  files : gmap Z File.doc;
  admin_settings : gmap string string
}.

Definition set_users (f : gmap Z User.doc → gmap Z User.doc) (d : db) : db :=
  mkdb (f (users_verification d)) (verification_tokens d) (files d) (admin_settings d).
Definition set_tokens (f : gmap string Token.doc → gmap string Token.doc) (d : db) : db :=
  mkdb (users_verification d) (f (verification_tokens d)) (files d) (admin_settings d).
Definition set_files (f : gmap Z File.doc → gmap Z File.doc) (d : db) : db :=
  mkdb (users_verification d) (verification_tokens d) (f (files d)) (admin_settings d).

(** ** Database operations as state transformers *)

Definition M (A : Type) : Type := db → A * db.

Definition ret {A} (a : A) : M A := λ d, (a, d).
Definition bind {A B} (c : M A) (k : A → M B) : M B :=
  λ d, let '(a, d') := c d in k a d'.
Definition get_db : M db := λ d, (d, d).
Definition modify (f : db → db) : M unit := λ d, (tt, f d).

Notation "'let!' x := c 'in' k" := (bind c (λ x, k))
  (at level 10, x name, c at level 100, k at level 200).
Notation "'do!' c 'in' k" := (bind c (λ _, k))
  (at level 10, c at level 100, k at level 200).

(** *** Calls that are not awaited

    [users.py], [files.py] and [settings.py] call the Motor collection
    without [await].  The call hands the operation to the driver's
    executor, which carries it out, and evaluates to a Future instead of
    the operation's result.  A Future is truthy and is not [None];
    subscripting it ([user['_id']]) raises [TypeError], and reading an
    attribute of a result from it ([result.modified_count]) raises
    [AttributeError].  Every function of these modules runs its body in
    [try ... except Exception], so a raise is answered with the value of
    the [except] branch. *)

Inductive future := Future.

(** [if x:] and [if not x:] on a Future. *)
Definition future_truthy (x : future) : bool := true.

(** [x is not None] on a Future. *)
Definition future_is_not_None (x : future) : bool := true.

(** [x[key]] and [x.name] on a Future raise: there is no value. *)
Definition future_subscript (x : future) (key : string) : option Empty_set := None.
Definition future_attribute (x : future) (name : string) : option Empty_set := None.

(** The value of a [try] body that stops at [raising], an expression that
    raises unless it has a value: the value of the [except] branch. *)
Definition try_except {A} (raising : option Empty_set) (handler : A) : A :=
  match raising with
  | Some value => match value with end
  | None => handler
  end.

(** [collection.find_one(...)] not awaited: a read. *)
Definition find_one_unawaited : M future := ret Future.

(** [collection.update_one({'user_id': user_id}, update)] not awaited: the
    store applies [update] to the user's document, if there is one. *)
Definition update_one_user_unawaited (user_id : Z)
    (update : User.doc → User.doc) : M future :=
  do! modify (set_users (alter update user_id)) in ret Future.

(** [collection.update_many(filter, update)] not awaited, with the filter
    inside [update]. *)
Definition update_many_users_unawaited (update : User.doc → User.doc)
    : M future :=
  do! modify (set_users (fmap update)) in ret Future.

(** [collection.insert_one(doc)] and [collection.delete_one(...)] not
    awaited. *)
Definition insert_one_user_unawaited (doc : User.doc) : M future :=
  do! modify (set_users (insert (User.user_id doc) doc)) in ret Future.

Definition delete_one_user_unawaited (user_id : Z) : M future :=
  do! modify (set_users (delete user_id)) in ret Future.

(** [collection.update_one({'post_no': post_no}, update)] not awaited. *)
Definition update_one_file_unawaited (post_no : Z)
    (update : File.doc → File.doc) : M future :=
  do! modify (set_files (alter update post_no)) in ret Future.

(** *** database/operations/users.py *)

(** [get_user_by_id]: [user] is the Future of the [find_one], so
    [if user:] holds and [user['_id']] raises; the function returns the
    [None] of its [except] branch, for every user id. *)
Definition get_user_by_id (user_id : Z) : M (option User.doc) :=
  let! user := find_one_unawaited in
  ret (if future_truthy user
       then try_except (future_subscript user "_id") None
       else None).

(** [create_user]: [existing] is a Future, so the function takes the
    "already exists" branch, where [existing['_id']] raises; the insert
    is never reached. *)
Definition create_user (now : Z) (user_id : Z)
    (username first_name : option string) : M (option string) :=
  let! existing := find_one_unawaited in
  if future_truthy existing
  then ret (try_except (future_subscript existing "_id") None)
  else
    let! result := insert_one_user_unawaited
      {| User.user_id := user_id;
         User.username := username;
         User.first_name := first_name;
         User.is_verified := false;
         User.verified_at := None;
         User.expires_at := None;
         User.files_accessed_count := 0;
         User.files_accessed := [];
         User.last_access := Datetime.bson now;
         User.created_at := Datetime.bson now;
         User.updated_at := None;
         User.verified_by := None |} in
    ret (try_except (future_attribute result "inserted_id") None).

(** The [$set] document of [verify_user_manually]. *)
Definition set_verification (verified_at expires_at now : Z)
    (verified_by : option Z) (u : User.doc) : User.doc :=
  {| User.user_id := User.user_id u;
     User.username := User.username u;
     User.first_name := User.first_name u;
     User.is_verified := true;
     User.verified_at := Some (Datetime.bson verified_at);
     User.expires_at := Some (Datetime.bson expires_at);
     User.files_accessed_count := 0;
     User.files_accessed := [];
     User.last_access := User.last_access u;
     User.created_at := User.created_at u;
     User.updated_at := Some (Datetime.bson now);
     User.verified_by := verified_by |}.

(** [verify_user_manually]: the expiry is computed first, inside the
    [try]; an [OverflowError] there is caught and nothing is written.
    [user] is a Future, so [if not user:] fails and [create_user] is not
    called; the [update_one] is carried out, on the user's document if
    there is one; [result.modified_count] raises and the function returns
    the [False] of its [except] branch. *)
Definition verify_user_manually (now : Z) (user_id : Z) (hours : Z)
    (verified_by : option Z) : M bool :=
  match Datetime.add now (Datetime.hours hours) with
  | None => ret false
  | Some expires_at =>
      let! user := find_one_unawaited in
      do! (if negb (future_truthy user)
           then create_user now user_id None None else ret None) in
      let! result := update_one_user_unawaited user_id
                       (set_verification now expires_at now verified_by) in
      ret (try_except (future_attribute result "modified_count") false)
  end.

(** [$addToSet]: append unless already an element of the array. *)
Definition addToSet (x : Z) (l : list Z) : list Z :=
  if bool_decide (x ∈ l) then l else l ++ [x].

(** The update document of [increment_user_file_access]:
    [$inc files_accessed_count], [$addToSet files_accessed],
    [$set last_access]. *)
Definition record_file_access (now post_no : Z) (u : User.doc) : User.doc :=
  {| User.user_id := User.user_id u;
     User.username := User.username u;
     User.first_name := User.first_name u;
     User.is_verified := User.is_verified u;
     User.verified_at := User.verified_at u;
     User.expires_at := User.expires_at u;
     User.files_accessed_count := User.files_accessed_count u + 1;
     User.files_accessed := addToSet post_no (User.files_accessed u);
     User.last_access := Datetime.bson now;
     User.created_at := User.created_at u;
     User.updated_at := User.updated_at u;
     User.verified_by := User.verified_by u |}.

(** [increment_user_file_access]: the update is carried out;
    [result.modified_count] raises and the function returns [False]. *)
Definition increment_user_file_access (now : Z) (user_id post_no : Z) : M bool :=
  let! result := update_one_user_unawaited user_id
                   (record_file_access now post_no) in
  ret (try_except (future_attribute result "modified_count") false).

(** [user_has_accessed_file]: [user is not None] for the Future of the
    [find_one]. *)
Definition user_has_accessed_file (user_id post_no : Z) : M bool :=
  let! user := find_one_unawaited in
  ret (future_is_not_None user).

(** *** database/operations/files.py *)

(** [get_file_by_post_no]: as [get_user_by_id], [file['_id']] raises on
    the Future and the function returns [None] for every post number. *)
Definition get_file_by_post_no (post_no : Z) : M (option File.doc) :=
  let! file := find_one_unawaited in
  ret (if future_truthy file
       then try_except (future_subscript file "_id") None
       else None).

(** The update document of [increment_download_count]:
    [$inc download_count], [$set last_downloaded_at]. *)
Definition record_download (now : Z) (f : File.doc) : File.doc :=
  {| File.post_no := File.post_no f;
     File.context := File.context f;
     File.extra_message := File.extra_message f;
     File.file_id := File.file_id f;
     File.file_name := File.file_name f;
     File.storage_message_id := File.storage_message_id f;
     File.public_message_id := File.public_message_id f;
     File.password := File.password f;
     File.download_count := File.download_count f + 1;
     File.created_by := File.created_by f;
     File.created_at := File.created_at f;
     File.last_downloaded_at := Some (Datetime.bson now) |}.

(** [increment_download_count]: the update is carried out;
    [result.modified_count] raises and the function returns [False]. *)
Definition increment_download_count (now : Z) (post_no : Z) : M bool :=
  let! result := update_one_file_unawaited post_no (record_download now) in
  ret (try_except (future_attribute result "modified_count") false).

(** *** database/operations/settings.py *)

(** [get_setting], reduced to the [setting_value] of the document:
    [setting['_id']] raises on the Future and the function returns
    [None] for every key. *)
Definition get_setting (setting_key : string) : M (option string) :=
  let! setting := find_one_unawaited in
  ret (if future_truthy setting
       then try_except (future_subscript setting "_id") None
       else None).

(** [get_setting_value]: the [setting_value] of what [get_setting]
    returned, else the default. *)
Definition get_setting_value (setting_key : string) (default : option string)
    : M (option string) :=
  let! setting := get_setting setting_key in
  ret (match setting with
       | Some v => Some v
       | None => default
       end).

(** *** database/operations/verification.py *)

(** The [token_doc] of [create_verification_token], as the store keeps
    it: [created_at = updated_at = now] and [expires_at]. *)
Definition token_doc (now : Z) (token_id : string) (user_id : Z)
    (expires_at : Z) : Token.doc :=
  {| Token.token_id := token_id;
     Token.user_id := user_id;
     Token.status := pending;
     Token.created_at := Datetime.bson now;
     Token.expires_at := Datetime.bson expires_at;
     Token.completed_at := None;
     Token.updated_at := Datetime.bson now |}.

(** [create_verification_token]: [insert_one] of the token document, with
    no test for a stored [token_id] ([token_id] is a new draw).  [true]
    stands for the object id the function returns, [false] for the [None]
    of a caught failure (an expiry that is not a datetime). *)
Definition create_verification_token (now : Z) (token_id : string)
    (user_id : Z) (expiry_seconds : Z) : M bool :=
  match Datetime.add now (Datetime.seconds expiry_seconds) with
  | None => ret false
  | Some expires_at =>
      do! modify (set_tokens (insert token_id
            (token_doc now token_id user_id expires_at))) in
      ret true
  end.

Definition get_verification_token (token_id : string) : M (option Token.doc) :=
  let! d := get_db in ret (verification_tokens d !! token_id).

(** The [$set] document of [update_token_status]: the status and
    [updated_at] always; [completed_at] when one is passed, or the clock
    when the new status is [completed]. *)
Definition set_status (now : Z) (status : token_status)
    (completed_at : option Z) (t : Token.doc) : Token.doc :=
  {| Token.token_id := Token.token_id t;
     Token.user_id := Token.user_id t;
     Token.status := status;
     Token.created_at := Token.created_at t;
     Token.expires_at := Token.expires_at t;
     Token.completed_at :=
       match completed_at with
       | Some c => Some (Datetime.bson c)
       | None => if bool_decide (status = completed)
                 then Some (Datetime.bson now)
                 else Token.completed_at t
       end;
     Token.updated_at := Datetime.bson now |}.

(** Returns [modified_count > 0]: the filter matches on [token_id] alone. *)
Definition update_token_status (now : Z) (token_id : string)
    (status : token_status) (completed_at : option Z) : M bool :=
  let! d := get_db in
  match verification_tokens d !! token_id with
  | Some t =>
      let t' := set_status now status completed_at t in
      do! modify (set_tokens (insert token_id t')) in
      ret (bool_decide (t' ≠ t))
  | None => ret false
  end.

Definition mark_token_in_progress (now : Z) (token_id : string) : M bool :=
  update_token_status now token_id in_progress None.

Definition mark_token_completed (now : Z) (token_id : string) : M bool :=
  update_token_status now token_id completed (Some now).

Definition mark_token_expired (now : Z) (token_id : string) : M bool :=
  update_token_status now token_id expired None.

(** [is_token_valid]: exists, not past its expiry, status pending or
    in_progress. *)
Definition is_token_valid (now : Z) (token_id : string) : M bool :=
  let! token := get_verification_token token_id in
  ret (match token with
       | None => false
       | Some t =>
           if bool_decide (Token.expires_at t < now) then false
           else if bool_decide (Token.status t ∉ [pending; in_progress]) then false
           else true
       end).

(** The documents of a collection, for the queries that are not by key. *)
Definition documents (m : gmap string Token.doc) : list Token.doc :=
  (map_to_list m).*2.

(** [has_user_pending_token]: a token of the user with status [pending]
    and [expires_at > now], the clock as the filter carries it. *)
Definition is_live_pending (now user_id : Z) (t : Token.doc) : bool :=
  bool_decide (Token.user_id t = user_id) &&
  bool_decide (Token.status t = pending) &&
  bool_decide (Token.expires_at t > now).

Definition has_user_pending_token (now : Z) (user_id : Z) : M bool :=
  let! d := get_db in
  ret (existsb (is_live_pending (Datetime.bson now) user_id)
         (documents (verification_tokens d))).

(** The filter of [invalidate_user_tokens]:
    [user_id] and [status $in [pending, in_progress]]. *)
Definition is_outstanding (user_id : Z) (t : Token.doc) : bool :=
  bool_decide (Token.user_id t = user_id) &&
  bool_decide (Token.status t ∈ [pending; in_progress]).

Definition expire_if_outstanding (now user_id : Z) (t : Token.doc) : Token.doc :=
  if is_outstanding user_id t then
    {| Token.token_id := Token.token_id t;
       Token.user_id := Token.user_id t;
       Token.status := expired;
       Token.created_at := Token.created_at t;
       Token.expires_at := Token.expires_at t;
       Token.completed_at := Token.completed_at t;
       Token.updated_at := Datetime.bson now |}
  else t.

(** [invalidate_user_tokens]: [update_many], returns [modified_count]. *)
Definition invalidate_user_tokens (now : Z) (user_id : Z) : M nat :=
  let! d := get_db in
  do! modify (set_tokens (fmap (expire_if_outstanding now user_id))) in
  ret (length (filter (λ t, is_outstanding user_id t = true)
                 (documents (verification_tokens d)))).

(** The number of non-terminal tokens a user holds. *)
Definition outstanding_tokens (user_id : Z) (d : db) : nat :=
  length (filter (λ t, is_outstanding user_id t = true)
            (documents (verification_tokens d))).

Definition eval {A} (c : M A) (d : db) : A := fst (c d).
Definition exec {A} (c : M A) (d : db) : db := snd (c d).

(** Python truthiness of an optional string: [None] and [''] are falsy. *)
Definition truthy (s : option string) : bool :=
  match s with
  | Some v => bool_decide (v ≠ "")
  | None => false
  end.

(** ** user_bot/utils/token.py *)

(** [validate_token]: the six checks in the order of the source. *)
Definition validate_token (now : Z) (token_id : string) (user_id : Z)
    : M (bool * string) :=
  let! token_record := get_verification_token token_id in
  ret (match token_record with
       | None => (false, "token_not_found")
       | Some t =>
           if bool_decide (Token.user_id t ≠ user_id) then (false, "token_mismatch")
           else if bool_decide (Token.expires_at t < now) then (false, "token_expired")
           else if bool_decide (Token.status t = completed) then (false, "token_reused")
           else if bool_decide (Token.status t ≠ in_progress) then (false, "invalid_state")
           else if Datetime.elapsed_lt now (Token.created_at t) 5 then (false, "too_fast")
           else (true, "valid")
       end).

(** ** verification_server/utils/bypass_check.py *)

Definition status_name (s : token_status) : string :=
  match s with
  | pending => "pending"
  | in_progress => "in_progress"
  | completed => "completed"
  | expired => "expired"
  end.

(** [check_token_timing]: at least 5 s since creation and at least 3 s
    since the last status change ([updated_at]). *)
Definition check_token_timing (now : Z) (t : Token.doc) : bool * string :=
  if Datetime.elapsed_lt now (Token.created_at t) 5 then (false, "too_fast")
  else if Datetime.elapsed_lt now (Token.updated_at t) 3
       then (false, "state_change_too_fast")
  else (true, "valid_timing").

Definition validate_token_state (t : Token.doc) : bool * string :=
  if bool_decide (Token.status t ≠ in_progress)
  then (false, "invalid_state_" ++ status_name (Token.status t))
  else (true, "valid_state").

(** [detect_bypass_attempt] returns [(is_bypass, reason)]. *)
Definition detect_bypass_attempt (now : Z) (token_id : string) (user_id : Z)
    : M (bool * string) :=
  let! token_record := get_verification_token token_id in
  ret (match token_record with
       | None => (true, "token_not_found")
       | Some t =>
           if bool_decide (Token.user_id t ≠ user_id) then (true, "user_mismatch")
           else if bool_decide (Token.expires_at t < now) then (true, "token_expired")
           else if bool_decide (Token.status t = completed) then (true, "token_reused")
           else
             let '(timing_check, timing_reason) := check_token_timing now t in
             if negb timing_check then (true, timing_reason)
             else
               let '(state_check, state_reason) := validate_token_state t in
               if negb state_check then (true, state_reason)
               else (false, "valid")
       end).

(** ** user_bot/utils/force_sub.py *)

(** What [bot.get_chat_member] does: returns a member with a status, or
    raises. *)
Inductive chat_member_result :=
  | ChatMember (status : string)
  | RaisesTelegramError
  | RaisesException.

(** A chat is addressed by its id or by its username. *)
Definition chat_identifier : Type := Z + string.

(** [channel_id if channel_id else channel_username], and [None] when the
    chosen identifier is falsy too. *)
Definition choose_identifier (channel_id : option Z)
    (channel_username : option string) : option chat_identifier :=
  match channel_id with
  | Some i => if bool_decide (i ≠ 0) then Some (inl i)
              else if truthy channel_username
                   then inr <$> channel_username else None
  | None => if truthy channel_username then inr <$> channel_username else None
  end.

Definition check_user_subscribed
    (get_chat_member : chat_identifier → Z → chat_member_result)
    (user_id : Z) (channel_id : option Z) (channel_username : option string)
    : bool :=
  match choose_identifier channel_id channel_username with
  | None => false
  | Some chat =>
      match get_chat_member chat user_id with
      | ChatMember status => bool_decide (status ∉ ["left"; "kicked"])
      | RaisesTelegramError => false
      | RaisesException => false
      end
  end.

(** ** user_bot/utils/file_manager.py *)

(** [can_resend_file]: "doesn't count against limit if already accessed". *)
Definition can_resend_file (user_id post_no : Z) : M bool :=
  let! user := get_user_by_id user_id in
  ret (match user with
       | None => false
       | Some u => bool_decide (post_no ∈ User.files_accessed u)
       end).

(** The two sends of [send_file_with_autodelete]: whether
    [bot.send_document] returns, and whether the warning was sent
    ([send_autodelete_warning] returns a message, or [None] when its send
    raised). *)
Module FileManager.

Record gateway := mkgw {
  send_document_ok : bool;
  warning_sent : bool
}.

(** [send_file_with_autodelete]: the document, the warning, the two
    counter updates, then the scheduled deletion, whose argument
    [warning_message.message_id] raises when there is no warning message;
    the deletion itself catches what it raises. *)
Definition send_file_with_autodelete (gw : gateway) (now : Z)
    (user_id post_no : Z) : M bool :=
  if negb (send_document_ok gw) then ret false
  else
    do! increment_download_count now post_no in
    do! increment_user_file_access now user_id post_no in
    if negb (warning_sent gw) then ret false
    else ret true.

(** [send_file_to_user] of the file manager: the caption, then
    [send_file_with_autodelete]. *)
Definition send_file_to_user (gw : gateway) (now : Z) (user_id post_no : Z)
    : M bool :=
  send_file_with_autodelete gw now user_id post_no.

End FileManager.

(** ** user_bot/handlers/download.py *)

(** The two gateway calls of a delivery: whether each one returns. *)
Record gateway := mkgw {
  copy_message_ok : bool;
  reply_text_ok : bool
}.

Inductive download_reply :=
  | FILE_NOT_FOUND
  | USER_RECORD_NOT_FOUND
  | LIMIT_REACHED
  | FILE_SENT
  | ERROR_SENDING_FILE.

#[global] Instance download_reply_eq_dec : EqDecision download_reply.
Proof. solve_decision. Defined.

Definition send_file_to_user (gw : gateway) (now : Z) (user_id post_no : Z)
    : M download_reply :=
  let! file_record := get_file_by_post_no post_no in
  match file_record with
  | None => ret FILE_NOT_FOUND
  | Some _ =>
      let! user := get_user_by_id user_id in
      match user with
      | None => ret USER_RECORD_NOT_FOUND
      | Some u =>
          if bool_decide (User.files_accessed_count u >= 3) then ret LIMIT_REACHED
          else if negb (copy_message_ok gw) then ret ERROR_SENDING_FILE
          else if negb (reply_text_ok gw) then ret ERROR_SENDING_FILE
          else
            do! increment_download_count now post_no in
            do! increment_user_file_access now user_id post_no in
            ret FILE_SENT
      end
  end.

(** ** user_bot/utils/verification.py *)

(** [check_verification_eligibility], without the reporting details. *)
Definition check_verification_eligibility (now : Z) (user_id : Z)
    : M (bool * string) :=
  let! user := get_user_by_id user_id in
  ret (match user with
       | None => (false, "user_not_found")
       | Some u =>
           if negb (User.is_verified u) then (false, "not_verified")
           else match User.expires_at u with
                | None => (false, "no_expiry")
                | Some expires_at =>
                    if bool_decide (expires_at < now) then (false, "expired")
                    else if bool_decide (User.files_accessed_count u >= 3)
                         then (false, "limit_reached")
                    else (true, "eligible")
                end
       end).

(** ** Handlers that depend on the configuration and on builtins *)

Section Handlers.

(** Python's [int] on a string; [None] when it raises. *)
Variable py_int : string → option Z.

(** [shared.encryption.decode_url_safe] ([None] when it raises) and
    [encode_url_safe]. *)
Variable decode_url_safe : string → option string.
Variable encode_url_safe : string → string.

(** [config.settings.VERIFICATION_TOKEN_EXPIRY] (seconds) and
    [config.settings.VERIFICATION_SERVER_URL]. *)
Variable VERIFICATION_TOKEN_EXPIRY : Z.
Variable VERIFICATION_SERVER_URL : string.

(** *** user_bot/utils/verification.py *)

(** [generate_verification_link]; [token_id] is the freshly generated id
    and [create_shortlink destination_url api_key base_url] the answer of
    the shortlink provider. *)
Definition generate_verification_link (now : Z) (token_id : string)
    (create_shortlink : string → string → string → option string)
    (user_id : Z) : M (option string) :=
  let! has_pending := has_user_pending_token now user_id in
  do! (if has_pending then invalidate_user_tokens now user_id else ret 0%nat) in
  let! result := create_verification_token now token_id user_id
                   VERIFICATION_TOKEN_EXPIRY in
  if negb result then ret None
  else
      let! shortlink_api := get_setting_value "shortlink_api_key" None in
      let! shortlink_base := get_setting_value "shortlink_base_url" None in
      if negb (truthy shortlink_api) || negb (truthy shortlink_base) then ret None
      else
        let! configured := get_setting_value "verification_server_url" None in
        let verification_server_url :=
          if truthy configured then default "" configured
          else VERIFICATION_SERVER_URL in
        let destination_url :=
          verification_server_url ++ "/verify?token=" ++ encode_url_safe token_id in
        let shortlink :=
          create_shortlink destination_url
            (default "" shortlink_api) (default "" shortlink_base) in
        ret (if truthy shortlink then shortlink else None).

(** *** user_bot/handlers/verification.py *)

Inductive verify_now_reply :=
  | ALREADY_VERIFIED_TEMPLATE
  | SERVICE_NOT_CONFIGURED
  | ERROR_GENERATING_LINK
  | LINK_GENERATED (url : string).

(** [handle_verify_now]; [token_id] is the generated token and
    [verification_link] what [generate_shortlink] returned. *)
Definition handle_verify_now (now : Z) (token_id : string)
    (verification_link : option string) (user_id : Z) : M verify_now_reply :=
  let! user := get_user_by_id user_id in
  let already :=
    match user with
    | Some u =>
        User.is_verified u &&
        match User.expires_at u with
        | Some expires_at => bool_decide (expires_at > now)
        | None => false
        end
    | None => false
    end in
  if already then ret ALREADY_VERIFIED_TEMPLATE
  else
    do! create_verification_token now token_id user_id
          VERIFICATION_TOKEN_EXPIRY in
    let! shortlink_api := get_setting_value "shortlink_api_key" None in
    let! shortlink_base := get_setting_value "shortlink_base_url" None in
    if negb (truthy shortlink_api) || negb (truthy shortlink_base)
    then ret SERVICE_NOT_CONFIGURED
    else if negb (truthy verification_link) then ret ERROR_GENERATING_LINK
    else ret (LINK_GENERATED (default "" verification_link)).

Inductive callback_reply :=
  | TOKEN_ERROR_TEMPLATE
  | BYPASS_DETECTED_TEMPLATE
  | VERIFIED_SUCCESS_TEMPLATE
  | UNHANDLED_EXCEPTION.

(** [handle_verification_callback].  [int(hours)] is outside any [try]:
    when it raises, the handler stops after the token was completed. *)
Definition handle_verification_callback (now : Z) (token_id : string)
    (user_id : Z) : M callback_reply :=
  let! token := get_verification_token token_id in
  match token with
  | None => ret TOKEN_ERROR_TEMPLATE
  | Some t =>
      if bool_decide (Token.user_id t ≠ user_id) then ret TOKEN_ERROR_TEMPLATE
      else if bool_decide (Token.expires_at t < now) then ret TOKEN_ERROR_TEMPLATE
      else if bool_decide (Token.status t = completed) then ret TOKEN_ERROR_TEMPLATE
      else if bool_decide (Token.status t ≠ in_progress)
           then ret BYPASS_DETECTED_TEMPLATE
      else if Datetime.elapsed_lt now (Token.created_at t) 5
           then ret BYPASS_DETECTED_TEMPLATE
      else
        do! mark_token_completed now token_id in
        let! hours := get_setting_value "verification_period_hours" (Some "24") in
        match hours ≫= py_int with
        | None => ret UNHANDLED_EXCEPTION
        | Some h =>
            do! verify_user_manually now user_id h (Some 0) in
            ret VERIFIED_SUCCESS_TEMPLATE
        end
  end.

(** *** verification_server/routes/shortlink.py *)

Inductive response :=
  | render_error (error_message : string) (code : Z)
  | redirect (location : string).

(** [handle_redirect]; [encrypted_token] is [request.args.get('token')]. *)
Definition handle_redirect (now : Z) (encrypted_token : option string)
    : M response :=
  if negb (truthy encrypted_token)
  then ret (render_error "Invalid verification link. Token missing." 400)
  else
    let encrypted := default "" encrypted_token in
    match decode_url_safe encrypted with
    | None => ret (render_error "Invalid token format." 400)
    | Some token_id =>
        let! token_record := get_verification_token token_id in
        match token_record with
        | None => ret (render_error "Token not found or expired." 404)
        | Some t =>
            if bool_decide (Token.expires_at t < now)
            then ret (render_error
                   "Verification link has expired. Please request a new one." 410)
            else if bool_decide (Token.status t = completed)
            then ret (render_error
                   "This verification link has already been used." 410)
            else
              do! mark_token_in_progress now token_id in
              ret (redirect ("/verify?token=" ++ encrypted))
        end
    end.

End Handlers.

(** ** Further operations of the cited modules *)

(** *** database/operations/users.py *)

(** [result = collection.update_one({'user_id': user_id}, {'$set': ...})]
    followed by [result.modified_count > 0]: the update is carried out,
    the attribute raises and the function returns [False]. *)
Definition update_one_user (user_id : Z) (f : User.doc → User.doc) : M bool :=
  let! result := update_one_user_unawaited user_id f in
  ret (try_except (future_attribute result "modified_count") false).

(** The [$set] document of [unverify_user]. *)
Definition clear_verification (now : Z) (u : User.doc) : User.doc :=
  {| User.user_id := User.user_id u;
     User.username := User.username u;
     User.first_name := User.first_name u;
     User.is_verified := false;
     User.verified_at := None;
     User.expires_at := None;
     User.files_accessed_count := User.files_accessed_count u;
     User.files_accessed := User.files_accessed u;
     User.last_access := User.last_access u;
     User.created_at := User.created_at u;
     User.updated_at := Some (Datetime.bson now);
     User.verified_by := User.verified_by u |}.

Definition unverify_user (now : Z) (user_id : Z) : M bool :=
  update_one_user user_id (clear_verification now).

(** The [$set] document of [reset_user_file_limit]. *)
Definition clear_file_limit (now : Z) (u : User.doc) : User.doc :=
  {| User.user_id := User.user_id u;
     User.username := User.username u;
     User.first_name := User.first_name u;
     User.is_verified := User.is_verified u;
     User.verified_at := User.verified_at u;
     User.expires_at := User.expires_at u;
     User.files_accessed_count := 0;
     User.files_accessed := [];
     User.last_access := User.last_access u;
     User.created_at := User.created_at u;
     User.updated_at := Some (Datetime.bson now);
     User.verified_by := User.verified_by u |}.

Definition reset_user_file_limit (now : Z) (user_id : Z) : M bool :=
  update_one_user user_id (clear_file_limit now).

(** The [$set] document of [update_user_verification] called with an
    expiry and no further fields: a falsy [expires_at] is not written. *)
Definition set_expiry (now : Z) (expires_at : option Z) (u : User.doc) : User.doc :=
  {| User.user_id := User.user_id u;
     User.username := User.username u;
     User.first_name := User.first_name u;
     User.is_verified := User.is_verified u;
     User.verified_at := User.verified_at u;
     User.expires_at :=
       match expires_at with
       | Some e => Some (Datetime.bson e)
       | None => User.expires_at u
       end;
     User.files_accessed_count := User.files_accessed_count u;
     User.files_accessed := User.files_accessed u;
     User.last_access := User.last_access u;
     User.created_at := User.created_at u;
     User.updated_at := Some (Datetime.bson now);
     User.verified_by := User.verified_by u |}.

Definition update_user_verification (now : Z) (user_id : Z)
    (expires_at : option Z) : M bool :=
  update_one_user user_id (set_expiry now expires_at).

(** [is_user_verified]: [user is not None] for the Future of the
    [find_one], whatever the filter. *)
Definition is_user_verified (now : Z) (user_id : Z) : M bool :=
  let! user := find_one_unawaited in
  ret (future_is_not_None user).

(** The filter of [cleanup_expired_verifications]:
    [is_verified: True, expires_at: {$lt: now}], the clock as the filter
    carries it. *)
Definition verification_lapsed (now : Z) (u : User.doc) : bool :=
  User.is_verified u &&
  match User.expires_at u with
  | Some e => bool_decide (e < Datetime.bson now)
  | None => false
  end.

Definition mark_lapsed (now stamp : Z) (u : User.doc) : User.doc :=
  if verification_lapsed now u then
    {| User.user_id := User.user_id u;
       User.username := User.username u;
       User.first_name := User.first_name u;
       User.is_verified := false;
       User.verified_at := User.verified_at u;
       User.expires_at := User.expires_at u;
       User.files_accessed_count := User.files_accessed_count u;
       User.files_accessed := User.files_accessed u;
       User.last_access := User.last_access u;
       User.created_at := User.created_at u;
       User.updated_at := Some (Datetime.bson stamp);
       User.verified_by := User.verified_by u |}
  else u.

(** [cleanup_expired_verifications]: [now] is the clock read for the
    filter, [stamp] the one for [updated_at].  The [update_many] is
    carried out; [result.modified_count] raises and the function returns
    the [0] of its [except] branch. *)
Definition cleanup_expired_verifications (now stamp : Z) : M nat :=
  let! result := update_many_users_unawaited (mark_lapsed now stamp) in
  ret (try_except (future_attribute result "modified_count") 0%nat).

(** [delete_user]: the [delete_one] is carried out;
    [result.deleted_count] raises and the function returns [False]. *)
Definition delete_user (user_id : Z) : M bool :=
  let! result := delete_one_user_unawaited user_id in
  ret (try_except (future_attribute result "deleted_count") false).

(** *** database/operations/verification.py *)

Definition delete_verification_token (token_id : string) : M bool :=
  let! d := get_db in
  do! modify (set_tokens (delete token_id)) in
  ret (bool_decide (is_Some (verification_tokens d !! token_id))).

(** [is_token_expired]: a missing token counts as expired. *)
Definition is_token_expired (now : Z) (token_id : string) : M bool :=
  let! token := get_verification_token token_id in
  ret (match token with
       | None => true
       | Some t => bool_decide (Token.expires_at t < now)
       end).

(** [cleanup_expired_tokens]: deletes the tokens whose [expires_at] lies
    before [now - hours], the cutoff as the filter carries it; a cutoff
    that is not a datetime raises inside the [try] and nothing is
    deleted. *)
Definition cleanup_expired_tokens (now : Z) (hours : Z) : M nat :=
  match Datetime.bson <$> Datetime.add now (- Datetime.hours hours) with
  | None => ret 0%nat
  | Some cutoff_time =>
      let! d := get_db in
      do! modify (set_tokens
            (filter (λ kt : string * Token.doc, ¬ Token.expires_at kt.2 < cutoff_time))) in
      ret (length (filter (λ t, Token.expires_at t < cutoff_time)
                     (documents (verification_tokens d))))
  end.

(** [delete_user_tokens]: [delete_many({'user_id': user_id})]. *)
Definition delete_user_tokens (user_id : Z) : M nat :=
  let! d := get_db in
  do! modify (set_tokens
        (filter (λ kt : string * Token.doc, Token.user_id kt.2 ≠ user_id))) in
  ret (length (filter (λ t, Token.user_id t = user_id)
                 (documents (verification_tokens d)))).

(** *** user_bot/utils/token.py *)

(** [check_token_status]: ["not_found"], ["expired"] once past
    [expires_at], else the stored status. *)
Definition check_token_status (now : Z) (token_id : string) : M string :=
  let! token_record := get_verification_token token_id in
  ret (match token_record with
       | None => "not_found"
       | Some t =>
           if bool_decide (Token.expires_at t < now) then "expired"
           else status_name (Token.status t)
       end).

Definition invalidate_token (now : Z) (token_id : string) : M bool :=
  update_token_status now token_id expired None.

(** *** verification_server/utils/token.py *)

(** [validate_verification_token], without the returned record; a falsy
    [expected_user_id] ([None] or 0) skips the owner check. *)
Definition validate_verification_token (now : Z) (token_id : string)
    (expected_user_id : option Z) : M (bool * string) :=
  let! token_record := get_verification_token token_id in
  ret (match token_record with
       | None => (false, "token_not_found")
       | Some t =>
           if bool_decide (Token.expires_at t < now) then (false, "token_expired")
           else if bool_decide (Token.status t = completed)
                then (false, "token_already_used")
           else match expected_user_id with
                | Some u =>
                    if bool_decide (u ≠ 0) && bool_decide (Token.user_id t ≠ u)
                    then (false, "user_mismatch")
                    else (true, "valid")
                | None => (true, "valid")
                end
       end).

(** [check_token_eligibility] *)
Definition check_token_eligibility (now : Z) (token_id : string)
    : M (bool * string) :=
  let! is_valid := is_token_valid now token_id in
  if negb is_valid then
    let! token_record := get_verification_token token_id in
    ret (match token_record with
         | None => (false, "token_not_found")
         | Some t =>
             if bool_decide (Token.expires_at t < now) then (false, "token_expired")
             else if bool_decide (Token.status t = completed)
                  then (false, "already_completed")
             else if bool_decide (Token.status t ≠ in_progress)
                  then (false, "invalid_status_" ++ status_name (Token.status t))
             else (false, "validation_failed")
         end)
  else ret (true, "eligible").

(** *** user_bot/middleware/user_check.py *)

(** [check_verification] *)
Definition check_verification (now : Z) (user_id : Z) : M (bool * string) :=
  let! user := get_user_by_id user_id in
  ret (match user with
       | None => (false, "user_not_found")
       | Some u =>
           if negb (User.is_verified u) then (false, "not_verified")
           else match User.expires_at u with
                | None => (false, "no_expiry")
                | Some expires_at =>
                    if bool_decide (expires_at < now) then (false, "expired")
                    else (true, "verified")
                end
       end).

(** [check_file_access_limit] returns [(can_access, current_count)]. *)
Definition check_file_access_limit (user_id : Z) (limit : Z) : M (bool * Z) :=
  let! user := get_user_by_id user_id in
  ret (match user with
       | None => (false, 0)
       | Some u =>
           (bool_decide (User.files_accessed_count u < limit),
            User.files_accessed_count u)
       end).

(** *** user_bot/utils/verification.py *)

(** [can_verify_again] *)
Definition can_verify_again (now : Z) (user_id : Z) : M (bool * string) :=
  let! user := get_user_by_id user_id in
  ret (match user with
       | None => (true, "new_user")
       | Some u =>
           if negb (User.is_verified u) then (true, "not_verified")
           else match User.expires_at u with
                | None => (true, "no_expiry")
                | Some expires_at =>
                    if bool_decide (expires_at < now) then (true, "expired")
                    else (false, "already_verified")
                end
       end).

(** [extend_verification]: the new expiry is the stored one plus
    [additional_hours]; an expiry that is not a datetime raises and is
    answered with [False]. *)
Definition extend_verification (now : Z) (user_id : Z) (additional_hours : Z)
    : M bool :=
  let! user := get_user_by_id user_id in
  match user with
  | None => ret false
  | Some u =>
      match User.expires_at u with
      | None => ret false
      | Some current_expires_at =>
          match Datetime.add current_expires_at (Datetime.hours additional_hours) with
          | None => ret false
          | Some new_expires_at =>
              update_user_verification now user_id (Some new_expires_at)
          end
      end
  end.

(** [reset_verification]; the three operations read the clock one after
    the other. *)
Definition reset_verification (t_unverify t_reset t_invalidate : Z)
    (user_id : Z) : M bool :=
  let! unverify_result := unverify_user t_unverify user_id in
  let! reset_result := reset_user_file_limit t_reset user_id in
  do! invalidate_user_tokens t_invalidate user_id in
  ret (unverify_result && reset_result).

(** *** shared/utils.py *)

Definition build_deep_link (bot_username start_parameter : string) : string :=
  "https://t.me/" ++ bot_username ++ "?start=" ++ start_parameter.

(** *** database/models.py *)

(** [UserVerificationModel.is_expired] and [can_access_file], on the
    stored document. *)
Definition model_is_expired (now : Z) (u : User.doc) : bool :=
  if negb (User.is_verified u) then true
  else match User.expires_at u with
       | None => true
       | Some e => bool_decide (now > e)
       end.

Definition model_can_access_file (now : Z) (file_limit : Z) (u : User.doc) : bool :=
  negb (model_is_expired now u) &&
  bool_decide (User.files_accessed_count u < file_limit).

(** *** user_bot/utils/force_sub.py and the middleware *)

(** [force_sub_channels] documents; [channel_id] and [added_by] are
    optional fields. *)
Module Channel.
Record doc := mk {
  channel_username : option string;
  channel_link : string;
  button_text : string;
  channel_id : option Z;
  order : Z;
  is_active : bool
}.
#[global] Instance doc_eq_dec : EqDecision doc.
Proof. solve_decision. Defined.
End Channel.

(** *** database/operations/channels.py *)

(** A Motor cursor: [find] and [sort] return one without a round trip.
    It is iterable with [async for] only, so [list(cursor)] raises
    [TypeError]. *)
Inductive cursor := Cursor.

Definition cursor_list (c : cursor) : option Empty_set := None.

(** [get_active_channels]: [list(collection.find(...).sort(...))] raises
    and the [except] returns the empty list. *)
Definition get_active_channels : M (list Channel.doc) :=
  ret (try_except (cursor_list Cursor) []).

(** [get_unsubscribed_channels]; [channels] is what [get_active_channels]
    returned. *)
Definition get_unsubscribed_channels
    (get_chat_member : chat_identifier → Z → chat_member_result)
    (user_id : Z) (channels : list Channel.doc) : bool * list Channel.doc :=
  match channels with
  | [] => (true, [])
  | _ =>
      let unsubscribed :=
        foldl (λ unsubscribed channel,
                 if check_user_subscribed get_chat_member user_id
                      (Channel.channel_id channel) (Channel.channel_username channel)
                 then unsubscribed
                 else (unsubscribed ++ [channel])%list)
              [] channels in
      (bool_decide (length unsubscribed = 0%nat), unsubscribed)
  end.

(** [is_user_banned] *)
Definition is_user_banned
    (get_chat_member : chat_identifier → Z → chat_member_result)
    (user_id : Z) (channel_id : option Z) (channel_username : option string)
    : bool :=
  match choose_identifier channel_id channel_username with
  | None => false
  | Some chat =>
      match get_chat_member chat user_id with
      | ChatMember status => bool_decide (status = "kicked")
      | RaisesTelegramError => false
      | RaisesException => false
      end
  end.

(** One entry of the [channels] list of [get_subscription_status_details]. *)
Record channel_detail := mkdetail {
  detail_channel_username : option string;
  detail_button_text : string;
  detail_is_subscribed : bool;
  detail_channel_link : string
}.

Record subscription_status := mkstatus {
  total_channels : nat;
  subscribed : nat;
  not_subscribed : nat;
  all_subscribed : bool;
  channel_details : list channel_detail
}.

(** [get_subscription_status_details] *)
Definition get_subscription_status_details
    (get_chat_member : chat_identifier → Z → chat_member_result)
    (user_id : Z) (channels : list Channel.doc) : subscription_status :=
  match channels with
  | [] => mkstatus 0 0 0 true []
  | _ =>
      let '(subscribed_count, details) :=
        foldl (λ '(subscribed_count, details) channel,
                 let is_subscribed :=
                   check_user_subscribed get_chat_member user_id
                     (Channel.channel_id channel) (Channel.channel_username channel) in
                 ((if is_subscribed then S subscribed_count else subscribed_count),
                  (details ++ [mkdetail (Channel.channel_username channel)
                                 (Channel.button_text channel) is_subscribed
                                 (Channel.channel_link channel)])%list))
              (0%nat, []) channels in
      mkstatus (length channels) subscribed_count
        (length channels - subscribed_count)
        (bool_decide (subscribed_count = length channels)) details
  end.

(** The middleware's [check_force_subscribe] hands the gateway the channel
    id when it is truthy and otherwise whatever [channel_username] holds.
    A [TelegramError] counts as not subscribed; any other exception leaves
    the loop and is answered with [(False, [])]. *)
Definition middleware_chat : Type := Z + option string.

Definition middleware_chat_of (channel : Channel.doc) : middleware_chat :=
  match Channel.channel_id channel with
  | Some i => if bool_decide (i ≠ 0) then inl i
              else inr (Channel.channel_username channel)
  | None => inr (Channel.channel_username channel)
  end.

Definition middleware_check_force_subscribe
    (get_chat_member : middleware_chat → Z → chat_member_result)
    (user_id : Z) (channels : list Channel.doc) : bool * list Channel.doc :=
  match channels with
  | [] => (true, [])
  | _ =>
      let outcome :=
        foldl (λ acc channel,
                 match acc with
                 | None => None
                 | Some unsubscribed =>
                     match get_chat_member (middleware_chat_of channel) user_id with
                     | ChatMember status =>
                         if bool_decide (status ∈ ["left"; "kicked"])
                         then Some (unsubscribed ++ [channel])%list
                         else Some unsubscribed
                     | RaisesTelegramError => Some (unsubscribed ++ [channel])%list
                     | RaisesException => None
                     end
                 end)
              (Some []) channels in
      match outcome with
      | Some unsubscribed => (bool_decide (length unsubscribed = 0%nat), unsubscribed)
      | None => (false, [])
      end
  end.

(** [validate_user_for_download]: force subscribe, then verification,
    then the file limit. *)
Definition validate_user_for_download
    (get_chat_member : middleware_chat → Z → chat_member_result)
    (channels : list Channel.doc) (now : Z) (user_id : Z)
    : M (bool * string * option (list Channel.doc)) :=
  let '(is_subscribed, unsubscribed_channels) :=
    middleware_check_force_subscribe get_chat_member user_id channels in
  if negb is_subscribed then ret (false, "force_sub_failed", Some unsubscribed_channels)
  else
    let! verification := check_verification now user_id in
    let '(is_verified, status) := verification in
    if negb is_verified then
      (if bool_decide (status = "expired")
       then ret (false, "verification_expired", None)
       else ret (false, "not_verified", None))
    else
      let! access := check_file_access_limit user_id 3 in
      let '(can_access, current_count) := access in
      if negb can_access then ret (false, "limit_reached", None)
      else ret (true, "success", None).

(** ** The verification server and the bot-side verification helper *)

Section Routes.

(** Python's [int] on a string ([None] when it raises), the url-safe
    codec of [shared/encryption.py] and two configuration values. *)
Variable py_int : string → option Z.
Variable decode_url_safe : string → option string.
Variable encode_url_safe : string → string.
Variable USER_BOT_USERNAME : string.
Variable VERIFICATION_PERIOD_HOURS : Z.

(** *** user_bot/utils/verification.py *)

(** The period [verify_user] uses: [int] of what [get_setting_value]
    returned, else the configured default.  The default handed to the
    lookup is [str(VERIFICATION_PERIOD_HOURS)], which [int] takes back to
    [VERIFICATION_PERIOD_HOURS]; it is the [None] of this lookup. *)
Definition verification_hours : M Z :=
  let! verification_hours := get_setting_value "verification_period_hours" None in
  ret (match verification_hours with
       | Some v => default VERIFICATION_PERIOD_HOURS (py_int v)
       | None => VERIFICATION_PERIOD_HOURS
       end).

(** [verify_user]: validates the token once more, then verifies the
    user. *)
Definition verify_user (now : Z) (user_id : Z) (token_id : string)
    : M (bool * string) :=
  let! validation := validate_token now token_id user_id in
  let '(is_valid, reason) := validation in
  if negb is_valid then ret (false, reason)
  else
    let! hours := verification_hours in
    let! result := verify_user_manually now user_id hours (Some 0) in
    if result then ret (true, "verified")
    else ret (false, "verification_failed").

(** *** verification_server/routes/verify.py *)

Inductive page :=
  | error_html (error_message : string) (code : Z)
  | verify_html (redirect_url : string) (countdown_seconds : Z).

(** [verification_page]; [encrypted_token] is [request.args.get('token')]. *)
Definition verification_page (now : Z) (encrypted_token : option string)
    : M page :=
  if negb (truthy encrypted_token)
  then ret (error_html "Invalid verification link. Token missing." 400)
  else
    match decode_url_safe (default "" encrypted_token) with
    | None => ret (error_html "Invalid token format." 400)
    | Some token_id =>
        let! token_record := get_verification_token token_id in
        match token_record with
        | None => ret (error_html "Token not found or expired." 404)
        | Some t =>
            if bool_decide (Token.expires_at t < now)
            then ret (error_html
                   "Verification link has expired. Please request a new one." 410)
            else if bool_decide (Token.status t = completed)
            then ret (error_html
                   "This verification link has already been used." 410)
            else if bool_decide (Token.status t ≠ in_progress)
            then ret (error_html
                   "Invalid verification state. Please try again." 400)
            else
              ret (verify_html
                     (build_deep_link USER_BOT_USERNAME
                        (encode_url_safe ("verify-" ++ token_id))) 5)
        end
    end.

Inductive api_response :=
  | json (status : string) (code : Z).

(** [complete_verification]; the JSON body is [None] when absent or
    empty, else its [token_id] and [user_id] fields. *)
Definition complete_verification (now : Z)
    (data : option (option string * option Z)) : M api_response :=
  match data with
  | None => ret (json "error" 400)
  | Some (token_id, user_id) =>
      if negb (truthy token_id) ||
         negb (match user_id with Some u => bool_decide (u ≠ 0) | None => false end)
      then ret (json "error" 400)
      else
        let token_id := default "" token_id in
        let user_id := default 0 user_id in
        let! token_record := get_verification_token token_id in
        match token_record with
        | None => ret (json "error" 404)
        | Some t =>
            if bool_decide (Token.user_id t ≠ user_id) then ret (json "error" 403)
            else if bool_decide (Token.status t = completed)
            then ret (json "already_completed" 200)
            else
              do! mark_token_completed now token_id in
              do! verify_user_manually now user_id VERIFICATION_PERIOD_HOURS (Some 0) in
              ret (json "success" 200)
        end
  end.

End Routes.

(** ** Workloads and well-formed databases *)

(** A download request as [send_file_to_user] sees it. *)
Record download_request := mkreq {
  req_gateway : gateway;
  req_now : Z;
  req_user_id : Z;
  req_post_no : Z
}.

(** The requests served one after the other. *)
Fixpoint serve (requests : list download_request) : M (list download_reply) :=
  match requests with
  | [] => ret []
  | r :: rest =>
      let! reply := send_file_to_user (req_gateway r) (req_now r)
                      (req_user_id r) (req_post_no r) in
      let! replies := serve rest in
      ret (reply :: replies)
  end.

(** How many of the requests of [user_id] were answered with the file. *)
Fixpoint deliveries_to (user_id : Z) (requests : list download_request)
    (replies : list download_reply) : Z :=
  match requests, replies with
  | r :: requests, reply :: replies =>
      (if bool_decide (req_user_id r = user_id ∧ reply = FILE_SENT) then 1 else 0)
      + deliveries_to user_id requests replies
  | _, _ => 0
  end.

(** Calls that write to the users and tokens collections, or are meant
    to.  [update_user] and the extra fields of [update_user_verification],
    which store whatever they are handed, are not among them. *)
Inductive operation :=
  | CreateUser (now user_id : Z) (username first_name : option string)
  | VerifyUserManually (now user_id hours : Z) (verified_by : option Z)
  | IncrementUserFileAccess (now user_id post_no : Z)
  | UnverifyUser (now user_id : Z)
  | ResetUserFileLimit (now user_id : Z)
  | ExtendVerification (now user_id additional_hours : Z)
  | CleanupExpiredVerifications (now stamp : Z)
  | DeleteUser (user_id : Z)
  | ResetVerification (t_unverify t_reset t_invalidate user_id : Z)
  | UpdateUserVerification (now user_id : Z) (expires_at : option Z)
  | SendFileToUser (gw : gateway) (now user_id post_no : Z)
  | SendFileWithAutodelete (gw : FileManager.gateway) (now user_id post_no : Z)
  | CreateVerificationToken (now : Z) (token_id : string) (user_id expiry_seconds : Z)
  | UpdateTokenStatus (now : Z) (token_id : string) (status : token_status)
      (completed_at : option Z)
  | MarkTokenInProgress (now : Z) (token_id : string)
  | MarkTokenCompleted (now : Z) (token_id : string)
  | MarkTokenExpired (now : Z) (token_id : string)
  | InvalidateUserTokens (now user_id : Z)
  | DeleteVerificationToken (token_id : string)
  | DeleteUserTokens (user_id : Z)
  | CleanupExpiredTokens (now hours : Z)
  | HandleVerifyNow (now : Z) (token_id : string) (link : option string) (user_id : Z)
  | HandleRedirect (now : Z) (encrypted_token : option string)
  | HandleVerificationCallback (now : Z) (token_id : string) (user_id : Z)
  | CompleteVerification (now : Z) (data : option (option string * option Z)).

(** The configuration and builtins the handlers depend on. *)
Record environment := mkenv {
  env_int : string → option Z;
  env_decode_url_safe : string → option string;
  env_token_expiry : Z;
  env_period_hours : Z
}.

Definition perform (env : environment) (op : operation) (d : db) : db :=
  match op with
  | CreateUser now user_id username first_name =>
      exec (create_user now user_id username first_name) d
  | VerifyUserManually now user_id hours verified_by =>
      exec (verify_user_manually now user_id hours verified_by) d
  | IncrementUserFileAccess now user_id post_no =>
      exec (increment_user_file_access now user_id post_no) d
  | UnverifyUser now user_id => exec (unverify_user now user_id) d
  | ResetUserFileLimit now user_id => exec (reset_user_file_limit now user_id) d
  | ExtendVerification now user_id additional_hours =>
      exec (extend_verification now user_id additional_hours) d
  | CleanupExpiredVerifications now stamp =>
      exec (cleanup_expired_verifications now stamp) d
  | DeleteUser user_id => exec (delete_user user_id) d
  | ResetVerification t1 t2 t3 user_id =>
      exec (reset_verification t1 t2 t3 user_id) d
  | UpdateUserVerification now user_id expires_at =>
      exec (update_user_verification now user_id expires_at) d
  | SendFileToUser gw now user_id post_no =>
      exec (send_file_to_user gw now user_id post_no) d
  | SendFileWithAutodelete gw now user_id post_no =>
      exec (FileManager.send_file_with_autodelete gw now user_id post_no) d
  | UpdateTokenStatus now token_id status completed_at =>
      exec (update_token_status now token_id status completed_at) d
  | CreateVerificationToken now token_id user_id expiry_seconds =>
      exec (create_verification_token now token_id user_id expiry_seconds) d
  | MarkTokenInProgress now token_id => exec (mark_token_in_progress now token_id) d
  | MarkTokenCompleted now token_id => exec (mark_token_completed now token_id) d
  | MarkTokenExpired now token_id => exec (mark_token_expired now token_id) d
  | InvalidateUserTokens now user_id => exec (invalidate_user_tokens now user_id) d
  | DeleteVerificationToken token_id => exec (delete_verification_token token_id) d
  | DeleteUserTokens user_id => exec (delete_user_tokens user_id) d
  | CleanupExpiredTokens now hours => exec (cleanup_expired_tokens now hours) d
  | HandleVerifyNow now token_id link user_id =>
      exec (handle_verify_now (env_token_expiry env) now token_id link user_id) d
  | HandleRedirect now encrypted_token =>
      exec (handle_redirect (env_decode_url_safe env) now encrypted_token) d
  | HandleVerificationCallback now token_id user_id =>
      exec (handle_verification_callback (env_int env) now token_id user_id) d
  | CompleteVerification now data =>
      exec (complete_verification (env_period_hours env) now data) d
  end.

Definition perform_all (env : environment) (ops : list operation) (d : db) : db :=
  foldl (λ d op, perform env op d) d ops.

(** A well-formed user record: stored under its own id, a duplicate-free
    [files_accessed] no longer than the counter, and both dates present
    while [is_verified]. *)
Definition user_ok (key : Z) (u : User.doc) : Prop :=
  User.user_id u = key ∧
  NoDup (User.files_accessed u) ∧
  Z.of_nat (length (User.files_accessed u)) <= User.files_accessed_count u ∧
  (User.is_verified u = true →
   is_Some (User.verified_at u) ∧ is_Some (User.expires_at u)).

(** A well-formed token record: stored under its own id, with a
    completion time once [completed]. *)
Definition token_ok (key : string) (t : Token.doc) : Prop :=
  Token.token_id t = key ∧
  (Token.status t = completed → is_Some (Token.completed_at t)).

Definition db_ok (d : db) : Prop :=
  map_Forall user_ok (users_verification d) ∧
  map_Forall token_ok (verification_tokens d).

Definition empty_db : db := mkdb ∅ ∅ ∅ ∅.

(** A computation that keeps the database well formed. *)
Definition preserves {A} (c : M A) : Prop := ∀ d, db_ok d → db_ok (exec c d).

(** ** Scenario data

    The users, tokens and files of the specification's scenarios, and the
    predicates the statements below use. *)

(** Seconds of the scenarios, as datetimes. *)
Definition T (s : Z) : Z := Datetime.seconds s.

Definition example_file (post_no : Z) : File.doc :=
  {| File.post_no := post_no; File.context := "archive";
     File.extra_message := ""; File.file_id := "BQACAgUAAx";
     File.file_name := "archive.zip"; File.storage_message_id := 100 + post_no;
     File.public_message_id := 200 + post_no; File.password := "default123";
     File.download_count := 1; File.created_by := 1;
     File.created_at := T 500; File.last_downloaded_at := Some (T 4000) |}.

(** User 42, verified at [T 1021] for 24 hours, with the given counters. *)
Definition example_user (count : Z) (seen : list Z) : User.doc :=
  {| User.user_id := 42; User.username := Some "alice";
     User.first_name := Some "Alice"; User.is_verified := true;
     User.verified_at := Some (T 1021); User.expires_at := Some (T 87421);
     User.files_accessed_count := count; User.files_accessed := seen;
     User.last_access := T 4000; User.created_at := T 1000;
     User.updated_at := Some (T 1021); User.verified_by := Some 0 |}.

Definition example_db (u : User.doc) (posts : list Z)
    (settings : gmap string string) : db :=
  {| users_verification := {[ 42 := u ]};
     verification_tokens := ∅;
     files := list_to_map ((λ p, (p, example_file p)) <$> posts);
     admin_settings := settings |}.

Definition gateway_ok : gateway := mkgw true true.

(** The conditions under which the code accepts a token record. *)
Definition accepts (now user_id : Z) (t : Token.doc) : Prop :=
  Token.user_id t = user_id ∧
  Token.status t = in_progress ∧
  now <= Token.expires_at t ∧
  now - Token.created_at t >= Datetime.seconds 5.

Definition example_token (token_id : string) (status : token_status)
    (created_at updated_at expires_at : Z) : Token.doc :=
  {| Token.token_id := token_id; Token.user_id := 42; Token.status := status;
     Token.created_at := created_at; Token.expires_at := expires_at;
     Token.completed_at := None; Token.updated_at := updated_at |}.

(** User 42 before any verification, and one token. *)
Definition unverified_user : User.doc :=
  {| User.user_id := 42; User.username := Some "alice";
     User.first_name := Some "Alice"; User.is_verified := false;
     User.verified_at := None; User.expires_at := None;
     User.files_accessed_count := 3; User.files_accessed := [7; 8; 9];
     User.last_access := T 900; User.created_at := T 800;
     User.updated_at := None; User.verified_by := None |}.

Definition token_db (t : Token.doc) : db :=
  {| users_verification := {[ 42 := unverified_user ]};
     verification_tokens := {[ Token.token_id t := t ]};
     files := ∅;
     admin_settings := {[ "verification_period_hours" := "24" ]} |}.

(** [int] on the decimal the settings are seeded with. *)
Definition int_24 (s : string) : option Z :=
  if bool_decide (s = "24") then Some 24 else None.

(** [int] on the decimals of the periods 24 and 48. *)
Definition int_of_setting (s : string) : option Z :=
  if bool_decide (s = "24") then Some 24
  else if bool_decide (s = "48") then Some 48 else None.

(** A database with the given users, one token and the stored
    [verification_period_hours]. *)
Definition settings_db (users : gmap Z User.doc) (t : Token.doc)
    (hours : string) : db :=
  {| users_verification := users;
     verification_tokens := {[ Token.token_id t := t ]};
     files := ∅;
     admin_settings := {[ "verification_period_hours" := hours ]} |}.

(** [decode_url_safe] on the encoding of "abc". *)
Definition decode_abc (s : string) : option string :=
  if bool_decide (s = "YWJj") then Some "abc" else None.

Definition no_shortlink (destination_url api_key base_url : string)
    : option string := None.

Definition count_outstanding (user_id : Z) (l : list Token.doc) : nat :=
  length (filter (λ t, is_outstanding user_id t = true) l).

(** * Properties *)

(** Unfolds the state-transformer layer. *)
Ltac run :=
  unfold exec, eval, bind, ret, get_db, modify in *; cbn [fst snd] in *.

(** ** The resolution of the store *)

Lemma bson_le x : Datetime.bson x <= x.
Proof. unfold Datetime.bson. pose proof (Z.mod_pos_bound x 1000). lia. Qed.

Lemma bson_gt x : x < Datetime.bson x + 1000.
Proof. unfold Datetime.bson. pose proof (Z.mod_pos_bound x 1000). lia. Qed.

Lemma bson_mono x y : x <= y → Datetime.bson x <= Datetime.bson y.
Proof.
  intros Hxy. unfold Datetime.bson.
  rewrite !Z.mod_eq by lia.
  pose proof (Z.div_le_mono x y 1000). lia.
Qed.

Lemma bson_seconds n : Datetime.bson (Datetime.seconds n) = Datetime.seconds n.
Proof.
  unfold Datetime.bson, Datetime.seconds, Datetime.microseconds_per_second.
  replace (n * 1000000) with (n * 1000 * 1000) by lia.
  rewrite Z.mod_mul by lia. lia.
Qed.

(** Adding whole seconds does not move a datetime below its truncation. *)
Lemma bson_add_seconds x n :
  0 <= n → Datetime.bson x + Datetime.seconds n <= Datetime.bson (x + Datetime.seconds n).
Proof.
  intros Hn. unfold Datetime.bson, Datetime.seconds,
    Datetime.microseconds_per_second.
  replace (x + n * 1000000) with (x + (n * 1000) * 1000) by lia.
  rewrite Z.mod_add by lia. lia.
Qed.

(** ** The calls that are not awaited *)

(** The reads of the users, files and settings collections find nothing,
    on every database. *)
Lemma get_user_by_id_none user_id d : get_user_by_id user_id d = (None, d).
Proof. reflexivity. Qed.

Lemma get_file_by_post_no_none post_no d :
  get_file_by_post_no post_no d = (None, d).
Proof. reflexivity. Qed.

Lemma get_setting_value_default setting_key default d :
  get_setting_value setting_key default d = (default, d).
Proof. reflexivity. Qed.

(** The writes are carried out and reported as failed. *)
Lemma update_one_user_spec user_id f d :
  update_one_user user_id f d = (false, set_users (alter f user_id) d).
Proof. reflexivity. Qed.

Lemma increment_user_file_access_spec now user_id post_no d :
  increment_user_file_access now user_id post_no d
  = (false, set_users (alter (record_file_access now post_no) user_id) d).
Proof. reflexivity. Qed.

Lemma increment_download_count_spec now post_no d :
  increment_download_count now post_no d
  = (false, set_files (alter (record_download now) post_no) d).
Proof. reflexivity. Qed.

Lemma verify_user_manually_spec now user_id h verified_by d :
  verify_user_manually now user_id h verified_by d
  = (false,
     match Datetime.add now (Datetime.hours h) with
     | Some expires_at =>
         set_users (alter (set_verification now expires_at now verified_by)
                      user_id) d
     | None => d
     end).
Proof.
  unfold verify_user_manually. by destruct (Datetime.add _ _).
Qed.

Lemma set_users_alter_missing user_id f d :
  users_verification d !! user_id = None →
  set_users (alter f user_id) d = d.
Proof.
  intros Hu. destruct d as [us ts fs ss]. unfold set_users. cbn in *.
  f_equal. apply map_eq. intros k. destruct (decide (k = user_id)) as [->|Hk].
  - by rewrite lookup_alter_eq, Hu.
  - by rewrite lookup_alter_ne.
Qed.

(** ** Delivery and the quota counter *)

(** The counter grows on every recorded access, whether or not the post is
    already in [files_accessed]. *)
Lemma record_file_access_count now post_no u :
  User.files_accessed_count (record_file_access now post_no u)
  = User.files_accessed_count u + 1.
Proof. reflexivity. Qed.

Lemma addToSet_present x l : x ∈ l → addToSet x l = l.
Proof. intros H. unfold addToSet. by rewrite bool_decide_eq_true_2. Qed.

Lemma addToSet_absent x l : x ∉ l → addToSet x l = (l ++ [x])%list.
Proof. intros H. unfold addToSet. by rewrite bool_decide_eq_false_2. Qed.

(** The download handler finds no file: [get_file_by_post_no] returns
    [None] for every post, so the handler replies "File not found" and
    stops before the quota test, the copy and the counter updates. *)
Lemma send_file_to_user_finds_no_file gw now user_id post_no d :
  send_file_to_user gw now user_id post_no d = (FILE_NOT_FOUND, d).
Proof. reflexivity. Qed.

(** The delivery of the file manager, once the document is sent. *)
Lemma send_file_with_autodelete_sent gw now user_id post_no d :
  FileManager.send_document_ok gw = true →
  FileManager.send_file_with_autodelete gw now user_id post_no d
  = (FileManager.warning_sent gw,
     set_users (alter (record_file_access now post_no) user_id)
       (set_files (alter (record_download now) post_no) d)).
Proof.
  intros Hs. unfold FileManager.send_file_with_autodelete. rewrite Hs.
  by destruct (FileManager.warning_sent gw).
Qed.

(** C1: specification scenario 4 on the code.  User 42 holds
    [files_accessed = [7]] and [files_accessed_count = 1], and post 7 is
    delivered to the user again at [T 4700].  The update of
    [increment_user_file_access], which every delivery path calls once
    the file is sent, leaves [files_accessed] at [[7]] and the counter at
    2; so does the delivery of the file manager (a library function that
    no handler calls), which sends the file and calls it.  The handler of
    [download.py] replies "File not found" on this input, as on every
    other, and does not reach the update. *)
Lemma redelivery_increments_files_accessed_count :
  let d := example_db (example_user 1 [7]) [7] ∅ in
  let update := increment_user_file_access (T 4700) 42 7 in
  let redelivery :=
    FileManager.send_file_to_user (FileManager.mkgw true true) (T 4700) 42 7 in
  (User.files_accessed <$> users_verification d !! 42) = Some [7] ∧
  (User.files_accessed_count <$> users_verification d !! 42) = Some 1 ∧
  (User.files_accessed <$> users_verification (exec update d) !! 42) = Some [7] ∧
  (User.files_accessed_count <$> users_verification (exec update d) !! 42)
    = Some 2 ∧
  eval redelivery d = true ∧
  (User.files_accessed <$> users_verification (exec redelivery d) !! 42)
    = Some [7] ∧
  (User.files_accessed_count <$> users_verification (exec redelivery d) !! 42)
    = Some 2 ∧
  send_file_to_user gateway_ok (T 4700) 42 7 d = (FILE_NOT_FOUND, d).
Proof. vm_compute. repeat split. Qed.

(** C6: the quota boundary on the code, with the default limit of 3.
    User 42 is verified and post 11 is on record.  With
    [files_accessed_count = 2 = limit - 1] the request is not served, and
    with [files_accessed_count = 3 = limit] it is not answered with the
    limit-reached screen: in both cases the handler replies "File not
    found" and writes nothing, because [get_file_by_post_no] returns
    [None]; and [check_verification_eligibility] answers
    [user_not_found], because [get_user_by_id] does.  The comparison with
    the limit is never reached. *)
Lemma quota_gate_is_never_reached :
  let below := example_db (example_user 2 [7; 8]) [7; 11] ∅ in
  let at_limit := example_db (example_user 3 [7; 8; 9]) [7; 11] ∅ in
  files below !! 11 = Some (example_file 11) ∧
  (User.files_accessed_count <$> users_verification below !! 42) = Some 2 ∧
  send_file_to_user gateway_ok (T 4700) 42 11 below = (FILE_NOT_FOUND, below) ∧
  eval (check_verification_eligibility (T 4700) 42) below
    = (false, "user_not_found") ∧
  files at_limit !! 11 = Some (example_file 11) ∧
  (User.files_accessed_count <$> users_verification at_limit !! 42) = Some 3 ∧
  send_file_to_user gateway_ok (T 4700) 42 11 at_limit
    = (FILE_NOT_FOUND, at_limit) ∧
  eval (check_verification_eligibility (T 4700) 42) at_limit
    = (false, "user_not_found").
Proof. vm_compute. repeat split. Qed.



(** ** Validation of a returning token *)

Lemma validate_token_accepts_iff now token_id user_id d :
  fst (eval (validate_token now token_id user_id) d) = true ↔
  ∃ t, verification_tokens d !! token_id = Some t ∧ accepts now user_id t.
Proof.
  unfold validate_token, get_verification_token, accepts, Datetime.elapsed_lt.
  run. destruct (verification_tokens d !! token_id) as [t|]; cbn.
  - repeat case_bool_decide; cbn; split; try discriminate.
    all: try (intros (t' & [= <-] & ? & ? & ? & ?); first [congruence | lia]).
    intros _. exists t. repeat split; [congruence | | lia | lia].
    by destruct (Token.status t).
  - split; [discriminate | by intros (? & ? & _)].
Qed.

(** The handler takes the decision of [validate_token]: it rejects with
    the token-error screen or the bypass-detected screen exactly when
    [validate_token] rejects, and then writes nothing. *)
Lemma handle_verification_callback_rejects py_int now token_id user_id d :
  fst (eval (validate_token now token_id user_id) d) = false →
  exec (handle_verification_callback py_int now token_id user_id) d = d ∧
  (eval (handle_verification_callback py_int now token_id user_id) d
     = TOKEN_ERROR_TEMPLATE ∨
   eval (handle_verification_callback py_int now token_id user_id) d
     = BYPASS_DETECTED_TEMPLATE).
Proof.
  unfold validate_token, handle_verification_callback, get_verification_token.
  run. destruct (verification_tokens d !! token_id) as [t|]; cbn; [|by auto].
  repeat case_bool_decide; cbn; auto.
  destruct (Datetime.elapsed_lt _ _ _); cbn; [by auto | discriminate].
Qed.

(** What the accepting path writes. *)
Lemma mark_token_completed_frame now token_id d :
  users_verification (exec (mark_token_completed now token_id) d)
    = users_verification d ∧
  files (exec (mark_token_completed now token_id) d) = files d ∧
  admin_settings (exec (mark_token_completed now token_id) d) = admin_settings d.
Proof.
  unfold mark_token_completed, update_token_status. run.
  by destruct (verification_tokens d !! token_id).
Qed.

Lemma validate_token_reasons now token_id user_id d :
  fst (eval (validate_token now token_id user_id) d) = false →
  snd (eval (validate_token now token_id user_id) d)
    ∈ ["token_not_found"; "token_mismatch"; "token_expired";
       "token_reused"; "invalid_state"; "too_fast"].
Proof.
  unfold validate_token, get_verification_token. run.
  destruct (verification_tokens d !! token_id) as [t|]; cbn; [|set_solver].
  repeat case_bool_decide; cbn; try set_solver.
  destruct (Datetime.elapsed_lt _ _ _); cbn; [set_solver | discriminate].
Qed.

(** The accepting path as one equation: complete the token, read the
    period, verify the user. *)
Lemma handle_verification_callback_accepts py_int now token_id user_id d :
  fst (eval (validate_token now token_id user_id) d) = true →
  handle_verification_callback py_int now token_id user_id d
  = let d1 := exec (mark_token_completed now token_id) d in
    match eval (get_setting_value "verification_period_hours" (Some "24")) d1
          ≫= py_int with
    | None => (UNHANDLED_EXCEPTION, d1)
    | Some h =>
        (VERIFIED_SUCCESS_TEMPLATE,
         exec (verify_user_manually now user_id h (Some 0)) d1)
    end.
Proof.
  unfold validate_token, handle_verification_callback, get_verification_token.
  run. destruct (verification_tokens d !! token_id) as [t|] eqn:Ht; cbn; [|done].
  repeat case_bool_decide; cbn; try done.
  destruct (Datetime.elapsed_lt _ _ _); cbn; [done|]. intros _.
  unfold mark_token_completed, update_token_status, get_setting_value.
  run. rewrite Ht. cbn.
  destruct (py_int "24") as [h|]; [|done].
  by destruct (verify_user_manually now user_id h (Some 0) _).
Qed.

(** C2: a token minted at [T 3000], advanced at [T 3009] and presented at
    [T 3010] meets conditions (1) to (4) and has dwelt one second.
    [validate_token] answers [(True, "valid")] and the handler verifies the
    user; the dwell floor exists only in [detect_bypass_attempt], which
    flags the same token as [state_change_too_fast]. *)
Lemma validate_token_has_no_dwell_floor :
  let t := example_token "ghi" in_progress (T 3000) (T 3009) (T 3600) in
  let d := token_db t in
  accepts (T 3010) 42 t ∧
  T 3010 - Token.updated_at t < Datetime.seconds 3 ∧
  eval (validate_token (T 3010) "ghi" 42) d = (true, "valid") ∧
  eval (handle_verification_callback int_24 (T 3010) "ghi" 42) d
    = VERIFIED_SUCCESS_TEMPLATE ∧
  eval (detect_bypass_attempt (T 3010) "ghi" 42) d
    = (true, "state_change_too_fast").
Proof. vm_compute. repeat split; congruence. Qed.

(** C5, as stated, fails: the pending token "def" of user 42 expired at
    [T 1600]; presented at [T 2000] it is answered with the token-error
    screen ([token_expired]), not with the bypass-detected screen. *)
Lemma pending_token_past_expiry_is_token_error :
  let t := example_token "def" pending (T 1000) (T 1000) (T 1600) in
  let d := token_db t in
  verification_tokens d !! "def" = Some t ∧
  Token.status t = pending ∧
  eval (validate_token (T 2000) "def" 42) d = (false, "token_expired") ∧
  eval (handle_verification_callback int_24 (T 2000) "def" 42) d
    = TOKEN_ERROR_TEMPLATE ∧
  eval (handle_verification_callback int_24 (T 2000) "def" 42) d
    ≠ BYPASS_DETECTED_TEMPLATE.
Proof. vm_compute. repeat split; congruence. Qed.

(** C5, amended: a token whose stored status is [pending] is answered
    according to its owner and its expiry, and nothing is written.  When it
    belongs to the calling user and is not past its [expires_at], the
    answer is the bypass-detected screen ([validate_token]:
    [invalid_state]); when it belongs to another user, or belongs to the
    caller and is past its [expires_at], the answer is the token-error
    screen ([token_mismatch], [token_expired]). *)
Theorem pending_token_is_bypass_detected py_int now token_id user_id d t :
  verification_tokens d !! token_id = Some t →
  Token.status t = pending →
  let reply := eval (handle_verification_callback py_int now token_id user_id) d in
  let verdict := eval (validate_token now token_id user_id) d in
  exec (handle_verification_callback py_int now token_id user_id) d = d ∧
  (Token.user_id t = user_id → now <= Token.expires_at t →
   reply = BYPASS_DETECTED_TEMPLATE ∧ verdict = (false, "invalid_state")) ∧
  (Token.user_id t ≠ user_id →
   reply = TOKEN_ERROR_TEMPLATE ∧ verdict = (false, "token_mismatch")) ∧
  (Token.user_id t = user_id → Token.expires_at t < now →
   reply = TOKEN_ERROR_TEMPLATE ∧ verdict = (false, "token_expired")).
Proof.
  intros Ht Hs. cbv zeta.
  unfold validate_token, handle_verification_callback, get_verification_token.
  run. rewrite Ht. cbn. rewrite Hs.
  repeat case_bool_decide; cbn; try done; repeat split; intros; try done; lia.
Qed.

Lemma pending_token_is_bypass_detected_witness :
  let t := example_token "def" pending (T 1990) (T 1990) (T 2590) in
  let d := token_db t in
  let reply := eval (handle_verification_callback int_24 (T 2000) "def" 42) d in
  let verdict := eval (validate_token (T 2000) "def" 42) d in
  verification_tokens d !! "def" = Some t ∧
  Token.status t = pending ∧
  exec (handle_verification_callback int_24 (T 2000) "def" 42) d = d ∧
  (Token.user_id t = 42 → T 2000 <= Token.expires_at t →
   reply = BYPASS_DETECTED_TEMPLATE ∧ verdict = (false, "invalid_state")) ∧
  (Token.user_id t ≠ 42 →
   reply = TOKEN_ERROR_TEMPLATE ∧ verdict = (false, "token_mismatch")) ∧
  (Token.user_id t = 42 → Token.expires_at t < T 2000 →
   reply = TOKEN_ERROR_TEMPLATE ∧ verdict = (false, "token_expired")).
Proof.
  cbv zeta.
  split; [reflexivity|]. split; [reflexivity|].
  apply (pending_token_is_bypass_detected int_24 (T 2000) "def" 42
           (token_db (example_token "def" pending (T 1990) (T 1990) (T 2590)))
           (example_token "def" pending (T 1990) (T 1990) (T 2590)));
    reflexivity.
Defined.

(** What an accepted callback does to the user's record when there is
    one, with [int] reading "24" as 24: the record is verified from [now]
    for 24 hours, at the store's resolution, with a zero counter and an
    empty [files_accessed]. *)
Lemma accepted_token_verifies_the_stored_user py_int now token_id user_id d u :
  fst (eval (validate_token now token_id user_id) d) = true →
  py_int "24" = Some 24 →
  users_verification d !! user_id = Some u →
  now + Datetime.hours 24 <= Datetime.datetime_max →
  Datetime.datetime_min <= now →
  eval (handle_verification_callback py_int now token_id user_id) d
    = VERIFIED_SUCCESS_TEMPLATE ∧
  users_verification
    (exec (handle_verification_callback py_int now token_id user_id) d) !! user_id
  = Some (set_verification now (now + Datetime.hours 24) now (Some 0) u).
Proof.
  intros Hacc Hint Hu Hmax Hmin. unfold eval, exec.
  rewrite (handle_verification_callback_accepts _ _ _ _ _ Hacc). cbv zeta.
  unfold eval. rewrite get_setting_value_default. cbn [fst mbind option_bind].
  rewrite Hint. cbn [fst snd]. split; [done|].
  unfold exec at 1. rewrite verify_user_manually_spec. cbn [snd].
  unfold Datetime.add.
  rewrite bool_decide_eq_true_2
    by (unfold Datetime.hours, Datetime.microseconds_per_second in *; lia).
  destruct (mark_token_completed_frame now token_id d) as (Hmu & _).
  unfold set_users. cbn [users_verification].
  by rewrite lookup_alter_eq, Hmu, Hu.
Qed.

(** C7: an accepted token on the code.  The token "abc" of user 42,
    minted at [T 1000] and advanced at [T 1010], is presented at [T 1021]
    and accepted, and the handler answers with the success screen.  When
    user 42 has no record, none is created: the user is not verified.
    When the stored period is 48 hours, the record expires 24 hours after
    [now]: the handler uses the default of 24, not the stored period. *)
Lemma accepted_token_neither_creates_the_user_nor_reads_the_period :
  let t := example_token "abc" in_progress (T 1000) (T 1010) (T 1600) in
  let callback := handle_verification_callback int_of_setting (T 1021) "abc" 42 in
  let no_record := settings_db ∅ t "24" in
  let period_48 := settings_db {[ 42 := unverified_user ]} t "48" in
  eval (validate_token (T 1021) "abc" 42) no_record = (true, "valid") ∧
  users_verification no_record !! 42 = None ∧
  eval callback no_record = VERIFIED_SUCCESS_TEMPLATE ∧
  users_verification (exec callback no_record) !! 42 = None ∧
  eval (validate_token (T 1021) "abc" 42) period_48 = (true, "valid") ∧
  admin_settings period_48 !! "verification_period_hours" = Some "48" ∧
  int_of_setting "48" = Some 48 ∧
  eval callback period_48 = VERIFIED_SUCCESS_TEMPLATE ∧
  (User.expires_at <$> users_verification (exec callback period_48) !! 42)
    = Some (Some (T 1021 + Datetime.hours 24)).
Proof. vm_compute. repeat split. Qed.

(** C10: whenever [validate_token] rejects (token not found, user
    mismatch, expired, already completed, wrong state, too fast), and
    whenever the handler answers with the token-error or the
    bypass-detected screen, the database after the callback is the
    database before it: no field of the user's record and no token
    changes.  Only the accepting path writes. *)
Theorem rejected_callback_mutates_nothing py_int now token_id user_id d :
  fst (eval (validate_token now token_id user_id) d) = false ∨
  eval (handle_verification_callback py_int now token_id user_id) d
    = TOKEN_ERROR_TEMPLATE ∨
  eval (handle_verification_callback py_int now token_id user_id) d
    = BYPASS_DETECTED_TEMPLATE →
  exec (handle_verification_callback py_int now token_id user_id) d = d ∧
  users_verification
    (exec (handle_verification_callback py_int now token_id user_id) d) !! user_id
  = users_verification d !! user_id.
Proof.
  intros H.
  assert (fst (eval (validate_token now token_id user_id) d) = false) as Hrej.
  { destruct H as [H|H]; [done|].
    destruct (fst (eval (validate_token now token_id user_id) d)) eqn:Hv; [|done].
    exfalso. unfold eval in H.
    rewrite (handle_verification_callback_accepts _ _ _ _ _ Hv) in H.
    cbv zeta in H. destruct (_ ≫= py_int); cbn in H;
      destruct H as [H|H]; discriminate. }
  destruct (handle_verification_callback_rejects py_int _ _ _ _ Hrej) as [-> _].
  done.
Qed.

(** Specification scenario 3: minted at [T 3000], advanced at [T 3001],
    presented at [T 3002]. *)
Lemma rejected_callback_mutates_nothing_witness :
  let d := token_db (example_token "ghi" in_progress (T 3000) (T 3001) (T 3600)) in
  (fst (eval (validate_token (T 3002) "ghi" 42) d) = false ∨
   eval (handle_verification_callback int_24 (T 3002) "ghi" 42) d
     = TOKEN_ERROR_TEMPLATE ∨
   eval (handle_verification_callback int_24 (T 3002) "ghi" 42) d
     = BYPASS_DETECTED_TEMPLATE) ∧
  exec (handle_verification_callback int_24 (T 3002) "ghi" 42) d = d ∧
  users_verification
    (exec (handle_verification_callback int_24 (T 3002) "ghi" 42) d) !! 42
  = users_verification d !! 42.
Proof.
  cbv zeta.
  assert (fst (eval (validate_token (T 3002) "ghi" 42)
            (token_db (example_token "ghi" in_progress (T 3000) (T 3001) (T 3600))))
          = false) as Hrej by reflexivity.
  split; [left; exact Hrej|].
  apply (rejected_callback_mutates_nothing int_24 (T 3002) "ghi" 42
           (token_db (example_token "ghi" in_progress (T 3000) (T 3001) (T 3600)))).
  left. exact Hrej.
Defined.

(** ** Advancing a token from the landing route *)

Lemma mark_token_in_progress_spec now token_id d t :
  verification_tokens d !! token_id = Some t →
  exec (mark_token_in_progress now token_id) d
  = set_tokens (insert token_id (set_status now in_progress None t)) d.
Proof.
  intros Ht. unfold mark_token_in_progress, update_token_status. run.
  by rewrite Ht.
Qed.

(** C3, as stated, fails: the token "abc" is already [in_progress],
    advanced at [T 1010]; a second landing at [T 1015] is not a no-op, it
    stamps [updated_at] again. *)
Lemma advance_restamps_in_progress_token :
  let t := example_token "abc" in_progress (T 1000) (T 1010) (T 1600) in
  let d := token_db t in
  verification_tokens d !! "abc" = Some t ∧
  Token.status t = in_progress ∧
  exec (mark_token_in_progress (T 1015) "abc") d ≠ d ∧
  exec (handle_redirect decode_abc (T 1015) (Some "YWJj")) d ≠ d ∧
  (Token.updated_at <$> verification_tokens d !! "abc") = Some (T 1010) ∧
  (Token.updated_at <$>
     verification_tokens (exec (handle_redirect decode_abc (T 1015) (Some "YWJj")) d)
       !! "abc") = Some (T 1015).
Proof.
  cbv zeta. split; [reflexivity|]. split; [reflexivity|].
  split; [|split; [|split; reflexivity]].
  all: intros H;
    apply (f_equal (λ d, Token.updated_at <$> verification_tokens d !! "abc")) in H;
    vm_compute in H; discriminate.
Qed.

(** C3, amended: the advance is an unconditional write that only the
    route guards.  For a token id the request decodes to, the landing
    route leaves the database unchanged when the token is unknown, past its
    [expires_at] or [completed]; for a token within its lifetime whose
    status is [pending] or [in_progress] it stores status [in_progress] and
    [updated_at = now], at the store's resolution (so an [in_progress]
    token is stamped again), and changes no other field, token or
    collection. *)
Theorem handle_redirect_advances decode_url_safe now encrypted token_id d :
  encrypted ≠ "" →
  decode_url_safe encrypted = Some token_id →
  let d' := exec (handle_redirect decode_url_safe now (Some encrypted)) d in
  (verification_tokens d !! token_id = None → d' = d) ∧
  (∀ t, verification_tokens d !! token_id = Some t →
     (Token.expires_at t < now ∨ Token.status t = completed → d' = d) ∧
     (now <= Token.expires_at t →
      Token.status t = pending ∨ Token.status t = in_progress →
      d' = set_tokens (insert token_id
             {| Token.token_id := Token.token_id t;
                Token.user_id := Token.user_id t;
                Token.status := in_progress;
                Token.created_at := Token.created_at t;
                Token.expires_at := Token.expires_at t;
                Token.completed_at := Token.completed_at t;
                Token.updated_at := Datetime.bson now |}) d)).
Proof.
  intros Hne Hdec d'. subst d'.
  unfold handle_redirect, truthy, get_verification_token,
    mark_token_in_progress, update_token_status.
  rewrite (bool_decide_eq_true_2 (encrypted ≠ "")) by done. cbn.
  rewrite Hdec. run. split.
  - by intros ->.
  - intros t Ht. rewrite Ht. cbn. split.
    + intros [He|Hs].
      * by rewrite (bool_decide_eq_true_2 (Token.expires_at t < now)).
      * case_bool_decide; [done|].
        by rewrite (bool_decide_eq_true_2 (Token.status t = completed)).
    + intros He Hs.
      rewrite (bool_decide_eq_false_2 (Token.expires_at t < now)) by lia.
      rewrite (bool_decide_eq_false_2 (Token.status t = completed))
        by (destruct Hs as [-> | ->]; discriminate).
      cbn. rewrite Ht. reflexivity.
Qed.

Lemma handle_redirect_advances_witness :
  let d := token_db (example_token "abc" pending (T 1000) (T 1000) (T 1600)) in
  let d' := exec (handle_redirect decode_abc (T 1010) (Some "YWJj")) d in
  "YWJj" ≠ "" ∧ decode_abc "YWJj" = Some "abc" ∧
  (verification_tokens d !! "abc" = None → d' = d) ∧
  (∀ t, verification_tokens d !! "abc" = Some t →
     (Token.expires_at t < T 1010 ∨ Token.status t = completed → d' = d) ∧
     (T 1010 <= Token.expires_at t →
      Token.status t = pending ∨ Token.status t = in_progress →
      d' = set_tokens (insert "abc"
             {| Token.token_id := Token.token_id t;
                Token.user_id := Token.user_id t;
                Token.status := in_progress;
                Token.created_at := Token.created_at t;
                Token.expires_at := Token.expires_at t;
                Token.completed_at := Token.completed_at t;
                Token.updated_at := Datetime.bson (T 1010) |}) d)).
Proof.
  cbv zeta. split; [discriminate|]. split; [reflexivity|].
  apply (handle_redirect_advances decode_abc (T 1010) "YWJj" "abc");
    [discriminate | reflexivity].
Defined.

(** ** Minting *)

(** *** Counting a user's outstanding tokens *)

Lemma count_outstanding_perm user_id (l1 l2 : list Token.doc) :
  l1 ≡ₚ l2 → count_outstanding user_id l1 = count_outstanding user_id l2.
Proof. intros H. unfold count_outstanding. by rewrite H. Qed.

Lemma expire_if_outstanding_not_outstanding now user_id t :
  is_outstanding user_id (expire_if_outstanding now user_id t) = false.
Proof.
  unfold expire_if_outstanding.
  destruct (is_outstanding user_id t) eqn:Ht; [|done].
  unfold is_outstanding. cbn. apply andb_false_intro2.
  apply bool_decide_eq_false_2.
  rewrite !elem_of_cons, elem_of_nil. by intros [|[|]].
Qed.

Lemma count_outstanding_expired now user_id (l : list Token.doc) :
  count_outstanding user_id (expire_if_outstanding now user_id <$> l) = 0%nat.
Proof.
  unfold count_outstanding. induction l as [|t l IH]; [done|].
  rewrite fmap_cons, filter_cons_False; [done|].
  by rewrite expire_if_outstanding_not_outstanding.
Qed.

(** After [invalidate_user_tokens] the user holds no outstanding token. *)
Lemma invalidate_user_tokens_outstanding now user_id d :
  outstanding_tokens user_id (exec (invalidate_user_tokens now user_id) d) = 0%nat.
Proof.
  unfold invalidate_user_tokens, outstanding_tokens, documents. run. cbn.
  rewrite map_to_list_fmap, <- list_fmap_compose.
  rewrite (list_fmap_ext _ (expire_if_outstanding now user_id ∘ snd)
             (map_to_list (verification_tokens d)))
    by (by intros ? [? ?]).
  rewrite list_fmap_compose. apply count_outstanding_expired.
Qed.

(** Storing a fresh token of the user adds one to the count. *)
Lemma outstanding_tokens_insert user_id token_id t d :
  verification_tokens d !! token_id = None →
  is_outstanding user_id t = true →
  outstanding_tokens user_id (set_tokens (insert token_id t) d)
  = S (outstanding_tokens user_id d).
Proof.
  intros Hfresh Hout. unfold outstanding_tokens, documents. cbn.
  change (count_outstanding user_id
            (map_to_list (<[token_id:=t]> (verification_tokens d))).*2
          = S (count_outstanding user_id (map_to_list (verification_tokens d)).*2)).
  rewrite (count_outstanding_perm _ _ (t :: (map_to_list (verification_tokens d)).*2)).
  - unfold count_outstanding. by rewrite filter_cons_True.
  - by rewrite (map_to_list_insert _ _ _ Hfresh).
Qed.

Lemma create_verification_token_spec now token_id user_id expiry d :
  create_verification_token now token_id user_id expiry d
  = match Datetime.add now (Datetime.seconds expiry) with
    | Some expires_at =>
        (true, set_tokens (insert token_id
                 (token_doc now token_id user_id expires_at)) d)
    | None => (false, d)
    end.
Proof.
  unfold create_verification_token. by destruct (Datetime.add _ _).
Qed.

(** [handle_verify_now] mints for every user and then finds no shortlink
    settings. *)
Lemma handle_verify_now_spec expiry now token_id link user_id d :
  handle_verify_now expiry now token_id link user_id d
  = (SERVICE_NOT_CONFIGURED,
     exec (create_verification_token now token_id user_id expiry) d).
Proof.
  unfold handle_verify_now, exec. run. cbn.
  by destruct (create_verification_token now token_id user_id expiry d).
Qed.

(** [handle_verify_now] mints next to whatever the user already holds. *)
Lemma handle_verify_now_outstanding expiry now token_id link user_id d :
  verification_tokens d !! token_id = None →
  is_Some (Datetime.add now (Datetime.seconds expiry)) →
  outstanding_tokens user_id
    (exec (handle_verify_now expiry now token_id link user_id) d)
  = S (outstanding_tokens user_id d).
Proof.
  intros Hfresh [e He]. unfold exec.
  rewrite handle_verify_now_spec. unfold exec.
  rewrite create_verification_token_spec, He. cbn [snd].
  apply outstanding_tokens_insert; [done|].
  unfold is_outstanding. cbn. by rewrite bool_decide_eq_true_2.
Qed.

(** [generate_verification_link] expires the old tokens only behind its
    guard: with a live pending token the user ends with exactly the new
    token, without one the new token joins the old ones. *)
Lemma generate_verification_link_outstanding
    encode expiry server now token_id shortlink user_id d :
  verification_tokens d !! token_id = None →
  is_Some (Datetime.add now (Datetime.seconds expiry)) →
  outstanding_tokens user_id
    (exec (generate_verification_link encode expiry server now token_id
             shortlink user_id) d)
  = if eval (has_user_pending_token now user_id) d then 1%nat
    else S (outstanding_tokens user_id d).
Proof.
  intros Hfresh [e He].
  unfold generate_verification_link, has_user_pending_token. run.
  destruct (existsb _ _) eqn:Hp.
  - pose proof (invalidate_user_tokens_outstanding now user_id d) as Hz.
    unfold exec in Hz.
    destruct (invalidate_user_tokens now user_id d) as [n d1] eqn:Hinv.
    assert (verification_tokens d1 !! token_id = None) as Hfresh1.
    { revert Hinv. unfold invalidate_user_tokens. run. intros [= _ <-]. cbn.
      by rewrite lookup_fmap, Hfresh. }
    cbn in Hz. cbn [fst snd]. rewrite create_verification_token_spec, He. cbn.
    rewrite outstanding_tokens_insert, Hz; [done | done |].
    unfold is_outstanding; cbn; by rewrite bool_decide_eq_true_2.
  - cbn [fst snd]. rewrite create_verification_token_spec, He. cbn.
    apply outstanding_tokens_insert; [done|].
    unfold is_outstanding; cbn; by rewrite bool_decide_eq_true_2.
Qed.

(** C4: two mints on the code.  (a) User 42 holds the token "abc",
    [in_progress] and within its lifetime: [has_user_pending_token] is
    false, [generate_verification_link] invalidates nothing and the user
    ends with two non-terminal tokens.  (b) User 42 holds the pending
    token "abc": [handle_verify_now] mints "xyz" next to it.  (c) Only
    with a live pending token does [generate_verification_link] leave
    exactly one. *)
Lemma mint_leaves_two_outstanding_tokens :
  let in_flight := token_db (example_token "abc" in_progress (T 1000) (T 1010) (T 1600)) in
  let minted := token_db (example_token "abc" pending (T 1000) (T 1000) (T 1600)) in
  let link d := generate_verification_link (λ s, s) 600 "https://verify.example"
                  (T 1100) "xyz" no_shortlink 42 d in
  outstanding_tokens 42 in_flight = 1%nat ∧
  outstanding_tokens 42 (snd (link in_flight)) = 2%nat ∧
  outstanding_tokens 42 minted = 1%nat ∧
  outstanding_tokens 42 (exec (handle_verify_now 600 (T 1100) "xyz" None 42) minted)
    = 2%nat ∧
  outstanding_tokens 42 (snd (link minted)) = 1%nat.
Proof. vm_compute. repeat split. Qed.

(** ** Channel membership *)

(** C8: for a channel with a usable identifier, [check_user_subscribed]
    classifies the gateway's answer: the statuses creator, administrator,
    member and restricted as subscribed, left and kicked as not
    subscribed, and a gateway error (the specification's UNKNOWN: the
    query raised a [TelegramError] or another exception) as not
    subscribed. *)
Theorem check_user_subscribed_classification
    get_chat_member user_id channel_id channel_username chat :
  choose_identifier channel_id channel_username = Some chat →
  let subscribed :=
    check_user_subscribed get_chat_member user_id channel_id channel_username in
  match get_chat_member chat user_id with
  | ChatMember status =>
      (status ∈ ["creator"; "administrator"; "member"; "restricted"] →
       subscribed = true) ∧
      (status ∈ ["left"; "kicked"] → subscribed = false)
  | RaisesTelegramError => subscribed = false
  | RaisesException => subscribed = false
  end.
Proof.
  intros Hchat subscribed. subst subscribed. unfold check_user_subscribed.
  rewrite Hchat. destruct (get_chat_member chat user_id) as [s| |]; [|done..].
  split.
  - intros Hs. apply bool_decide_eq_true_2.
    set_unfold. destruct Hs as [->|[->|[->|[->|[]]]]]; intros [?|[?|[]]]; discriminate.
  - intros Hs. by apply bool_decide_eq_false_2; intros ?.
Qed.

Lemma check_user_subscribed_classification_witness :
  let gateway (chat : chat_identifier) (user_id : Z) := ChatMember "restricted" in
  let subscribed := check_user_subscribed gateway 42 (Some (-1001234)) None in
  choose_identifier (Some (-1001234)) None = Some (inl (-1001234)) ∧
  ((("restricted" : string) ∈ ["creator"; "administrator"; "member"; "restricted"] →
    subscribed = true) ∧
   (("restricted" : string) ∈ ["left"; "kicked"] → subscribed = false)).
Proof.
  cbv zeta. split; [reflexivity|].
  apply (check_user_subscribed_classification
           (λ _ _, ChatMember "restricted") 42 (Some (-1001234)) None
           (inl (-1001234))).
  reflexivity.
Defined.

(** * Further properties of the token, user and gate code *)

(** ** Tokens: minting, one-shot use, revocation *)

Lemma validate_token_depends_on_record now token_id user_id d d' :
  verification_tokens d' !! token_id = verification_tokens d !! token_id →
  eval (validate_token now token_id user_id) d'
  = eval (validate_token now token_id user_id) d.
Proof.
  intros H. unfold validate_token, get_verification_token. run. by rewrite H.
Qed.

Lemma validate_token_rejects_unless_in_progress now token_id user_id d t :
  verification_tokens d !! token_id = Some t →
  Token.status t ≠ in_progress →
  fst (eval (validate_token now token_id user_id) d) = false.
Proof.
  intros Ht Hs. unfold validate_token, get_verification_token. run.
  rewrite Ht. cbn. repeat case_bool_decide; try done.
Qed.

Lemma verify_user_manually_frame now user_id h verified_by d :
  verification_tokens (exec (verify_user_manually now user_id h verified_by) d)
    = verification_tokens d ∧
  files (exec (verify_user_manually now user_id h verified_by) d) = files d ∧
  admin_settings (exec (verify_user_manually now user_id h verified_by) d)
    = admin_settings d ∧
  ∀ other, other ≠ user_id →
    users_verification (exec (verify_user_manually now user_id h verified_by) d)
      !! other = users_verification d !! other.
Proof.
  unfold exec. rewrite verify_user_manually_spec. cbn [snd].
  destruct (Datetime.add _ _); [|done]. cbn. repeat split.
  intros other Ho. by rewrite lookup_alter_ne.
Qed.

(** X1.  A mint under a new id stores the token as [pending], with its
    three dates at the store's resolution, and changes no other token and
    no user.  The stored token does not validate: at every instant up to
    its stored [expires_at], [is_token_valid] holds of it and
    [validate_token] answers its owner with [invalid_state], until the
    landing route has advanced it. *)
Theorem minted_token_is_pending_and_not_acceptable
    now token_id user_id expiry_seconds d expires_at :
  verification_tokens d !! token_id = None →
  Datetime.add now (Datetime.seconds expiry_seconds) = Some expires_at →
  let mint := create_verification_token now token_id user_id expiry_seconds in
  eval mint d = true ∧
  verification_tokens (exec mint d) !! token_id
    = Some {| Token.token_id := token_id; Token.user_id := user_id;
              Token.status := pending;
              Token.created_at := Datetime.bson now;
              Token.expires_at := Datetime.bson expires_at;
              Token.completed_at := None;
              Token.updated_at := Datetime.bson now |} ∧
  (∀ other, other ≠ token_id →
     verification_tokens (exec mint d) !! other = verification_tokens d !! other) ∧
  users_verification (exec mint d) = users_verification d ∧
  (∀ now', now' <= Datetime.bson expires_at →
     eval (is_token_valid now' token_id) (exec mint d) = true ∧
     eval (validate_token now' token_id user_id) (exec mint d)
       = (false, "invalid_state")).
Proof.
  intros _ He. cbv zeta. unfold eval, exec.
  rewrite create_verification_token_spec, He. cbn [fst snd].
  split; [done|]. split; [apply lookup_insert_eq|].
  split; [intros other Ho; cbn; by rewrite lookup_insert_ne|].
  split; [done|]. intros now' Hnow'.
  unfold is_token_valid, validate_token, get_verification_token. run. cbn.
  rewrite lookup_insert_eq. cbn.
  rewrite (bool_decide_eq_false_2 (Datetime.bson expires_at < now')) by lia.
  by rewrite (bool_decide_eq_false_2 (user_id ≠ user_id)) by tauto.
Qed.

Lemma minted_token_is_pending_and_not_acceptable_witness :
  let d := token_db (example_token "abc" completed (T 100) (T 130) (T 700)) in
  let mint := create_verification_token (T 1000) "xyz" 42 600 in
  verification_tokens d !! "xyz" = None ∧
  Datetime.add (T 1000) (Datetime.seconds 600) = Some (T 1600) ∧
  eval mint d = true ∧
  verification_tokens (exec mint d) !! "xyz"
    = Some {| Token.token_id := "xyz"; Token.user_id := 42;
              Token.status := pending;
              Token.created_at := Datetime.bson (T 1000);
              Token.expires_at := Datetime.bson (T 1600);
              Token.completed_at := None;
              Token.updated_at := Datetime.bson (T 1000) |} ∧
  (∀ other, other ≠ "xyz" →
     verification_tokens (exec mint d) !! other = verification_tokens d !! other) ∧
  users_verification (exec mint d) = users_verification d ∧
  (∀ now', now' <= Datetime.bson (T 1600) →
     eval (is_token_valid now' "xyz") (exec mint d) = true ∧
     eval (validate_token now' "xyz" 42) (exec mint d)
       = (false, "invalid_state")).
Proof.
  cbv zeta. split; [reflexivity|]. split; [reflexivity|].
  apply (minted_token_is_pending_and_not_acceptable (T 1000) "xyz" 42 600
           (token_db (example_token "abc" completed (T 100) (T 130) (T 700)))
           (T 1600)); reflexivity.
Defined.

(** X3.  A token is good for one verification.  After a callback that was
    accepted, every later callback with the same token id, by any user and
    at any time, is rejected by [validate_token], is answered with the
    token-error screen and writes nothing. *)
Theorem accepted_token_cannot_be_replayed
    py_int now token_id user_id d now' user_id' :
  fst (eval (validate_token now token_id user_id) d) = true →
  let d' := exec (handle_verification_callback py_int now token_id user_id) d in
  fst (eval (validate_token now' token_id user_id') d') = false ∧
  eval (handle_verification_callback py_int now' token_id user_id') d'
    = TOKEN_ERROR_TEMPLATE ∧
  exec (handle_verification_callback py_int now' token_id user_id') d' = d'.
Proof.
  intros Hacc d'.
  assert (∃ t, verification_tokens d' !! token_id = Some t ∧
               Token.status t = completed) as (t' & Ht' & Hs').
  { subst d'. unfold exec.
    rewrite (handle_verification_callback_accepts _ _ _ _ _ Hacc). cbv zeta.
    apply validate_token_accepts_iff in Hacc as (t & Ht & _).
    assert (verification_tokens (exec (mark_token_completed now token_id) d)
              !! token_id = Some (set_status now completed (Some now) t)) as Hm.
    { unfold mark_token_completed, update_token_status. run. rewrite Ht. cbn.
      apply lookup_insert_eq. }
    destruct (_ ≫= py_int) as [h|]; cbn [snd].
    - destruct (verify_user_manually_frame now user_id h (Some 0)
                  (exec (mark_token_completed now token_id) d)) as (-> & _).
      eauto.
    - eauto. }
  assert (fst (eval (validate_token now' token_id user_id') d') = false) as Hrej
    by (eapply validate_token_rejects_unless_in_progress; [done | by rewrite Hs']).
  split; [done|].
  destruct (handle_verification_callback_rejects py_int _ _ _ _ Hrej) as [Hd _].
  split; [|done].
  unfold handle_verification_callback, get_verification_token. run.
  rewrite Ht'. cbn. rewrite Hs'.
  repeat case_bool_decide; done.
Qed.

Lemma accepted_token_cannot_be_replayed_witness :
  let d := token_db (example_token "abc" in_progress (T 1000) (T 1010) (T 1600)) in
  let d' := exec (handle_verification_callback int_24 (T 1021) "abc" 42) d in
  fst (eval (validate_token (T 1021) "abc" 42) d) = true ∧
  fst (eval (validate_token (T 1030) "abc" 42) d') = false ∧
  eval (handle_verification_callback int_24 (T 1030) "abc" 42) d'
    = TOKEN_ERROR_TEMPLATE ∧
  exec (handle_verification_callback int_24 (T 1030) "abc" 42) d' = d'.
Proof.
  cbv zeta. split; [reflexivity|].
  apply (accepted_token_cannot_be_replayed int_24 (T 1021) "abc" 42
           (token_db (example_token "abc" in_progress (T 1000) (T 1010) (T 1600)))
           (T 1030) 42).
  reflexivity.
Defined.

Lemma callback_verdict_and_screen py_int now token_id user_id d :
  (eval (validate_token now token_id user_id) d,
   eval (handle_verification_callback py_int now token_id user_id) d)
  ∈ [ ((false, "token_not_found"), TOKEN_ERROR_TEMPLATE);
      ((false, "token_mismatch"), TOKEN_ERROR_TEMPLATE);
      ((false, "token_expired"), TOKEN_ERROR_TEMPLATE);
      ((false, "token_reused"), TOKEN_ERROR_TEMPLATE);
      ((false, "invalid_state"), BYPASS_DETECTED_TEMPLATE);
      ((false, "too_fast"), BYPASS_DETECTED_TEMPLATE);
      ((true, "valid"), VERIFIED_SUCCESS_TEMPLATE);
      ((true, "valid"), UNHANDLED_EXCEPTION) ].
Proof.
  unfold validate_token, handle_verification_callback, get_verification_token,
    mark_token_completed, update_token_status, get_setting_value.
  run. destruct (verification_tokens d !! token_id) as [t|] eqn:Ht; cbn;
    [|set_solver].
  repeat case_bool_decide; cbn; try set_solver.
  destruct (Datetime.elapsed_lt _ _ _); cbn; [set_solver|].
  rewrite Ht. cbn. destruct (py_int "24") as [h|]; cbn; [|set_solver].
  destruct (verify_user_manually now user_id h (Some 0) _). cbn. set_solver.
Qed.

(** X4.  The screen of the callback is determined by the reason of
    [validate_token]: [invalid_state] and [too_fast] give the
    bypass-detected screen, the four other reasons the token-error screen,
    and an accepted token gives neither. *)
Theorem callback_screen_follows_validation_reason
    py_int now token_id user_id d :
  let reply := eval (handle_verification_callback py_int now token_id user_id) d in
  let verdict := eval (validate_token now token_id user_id) d in
  (reply = BYPASS_DETECTED_TEMPLATE ↔
     verdict = (false, "invalid_state") ∨ verdict = (false, "too_fast")) ∧
  (reply = TOKEN_ERROR_TEMPLATE ↔
     verdict = (false, "token_not_found") ∨ verdict = (false, "token_mismatch") ∨
     verdict = (false, "token_expired") ∨ verdict = (false, "token_reused")) ∧
  (reply = VERIFIED_SUCCESS_TEMPLATE ∨ reply = UNHANDLED_EXCEPTION ↔
     verdict = (true, "valid")).
Proof.
  intros reply verdict.
  pose proof (callback_verdict_and_screen py_int now token_id user_id d) as H.
  fold reply verdict in H. clearbody reply verdict.
  rewrite !elem_of_cons, elem_of_nil in H.
  destruct H as [H|[H|[H|[H|[H|[H|[H|[H|[]]]]]]]]]; injection H as -> ->;
    repeat split; intros; try discriminate; try tauto;
    intuition discriminate.
Qed.

(** X5.  The server-side detector is the bot-side validation plus the
    dwell floor: [detect_bypass_attempt] reports no bypass exactly when
    [validate_token] accepts and the token was last updated at least
    three seconds ago. *)
Theorem detect_bypass_attempt_is_validate_token_with_dwell
    now token_id user_id d :
  eval (detect_bypass_attempt now token_id user_id) d = (false, "valid") ↔
  ∃ t, verification_tokens d !! token_id = Some t ∧
       fst (eval (validate_token now token_id user_id) d) = true ∧
       now - Token.updated_at t >= Datetime.seconds 3.
Proof.
  unfold detect_bypass_attempt, validate_token, get_verification_token,
    check_token_timing, validate_token_state, Datetime.elapsed_lt.
  run. destruct (verification_tokens d !! token_id) as [t|]; cbn.
  - repeat case_bool_decide; cbn; split; try discriminate.
    all: try (intros (t' & [= <-] & Hacc & Hdwell); cbn in Hacc;
              first [discriminate | lia]).
    all: try (intros _; exists t; repeat split; first [done | lia]).
    all: try done.
  - split; [discriminate | by intros (? & ? & _)].
Qed.

Lemma documents_elem (m : gmap string Token.doc) t :
  t ∈ documents m ↔ ∃ k, m !! k = Some t.
Proof.
  unfold documents. rewrite list_elem_of_fmap. split.
  - intros ([k t'] & -> & H). exists k. by apply elem_of_map_to_list.
  - intros (k & H). exists (k, t). split; [done|]. by apply elem_of_map_to_list.
Qed.

Lemma expire_if_outstanding_owner now user_id t :
  Token.user_id (expire_if_outstanding now user_id t) = Token.user_id t.
Proof. unfold expire_if_outstanding. by destruct (is_outstanding user_id t). Qed.

Lemma expire_if_outstanding_terminal now user_id t :
  Token.user_id t = user_id →
  Token.status (expire_if_outstanding now user_id t) ≠ in_progress ∧
  Token.status (expire_if_outstanding now user_id t) ≠ pending.
Proof.
  intros Hu. unfold expire_if_outstanding.
  destruct (is_outstanding user_id t) eqn:Ho; cbn; [done|].
  unfold is_outstanding in Ho. rewrite bool_decide_eq_true_2 in Ho by done.
  cbn in Ho. apply bool_decide_eq_false_1 in Ho.
  rewrite !elem_of_cons, elem_of_nil in Ho. split; intros Hs; apply Ho; auto.
Qed.

(** X6.  [invalidate_user_tokens] revokes the user's tokens, as long
    as the stored records stay as the call left them.  On the database the
    call returns: no token of the user validates, whoever presents it and
    whatever the clock reads; no token at all validates for the user; the
    user has no live pending token; the call returned the number of
    tokens that were [pending] or [in_progress]; tokens of other users
    and tokens already [completed] or [expired] are exactly as they
    were; no user changed.  The revocation is not final: the landing
    route, visited afterwards for a revoked token no later than its
    [expires_at], puts it back to [in_progress]. *)
Theorem invalidate_user_tokens_revokes now user_id d :
  let d' := exec (invalidate_user_tokens now user_id) d in
  (∀ now' token_id t presenter,
     verification_tokens d !! token_id = Some t → Token.user_id t = user_id →
     fst (eval (validate_token now' token_id presenter) d') = false) ∧
  (∀ now' token_id, fst (eval (validate_token now' token_id user_id) d') = false) ∧
  (∀ now', eval (has_user_pending_token now' user_id) d' = false) ∧
  eval (invalidate_user_tokens now user_id) d = outstanding_tokens user_id d ∧
  (∀ token_id t, verification_tokens d !! token_id = Some t →
     Token.user_id t ≠ user_id ∨ Token.status t = completed ∨ Token.status t = expired →
     verification_tokens d' !! token_id = Some t) ∧
  users_verification d' = users_verification d ∧
  (∀ decode_url_safe encrypted now' token_id t,
     encrypted ≠ "" → decode_url_safe encrypted = Some token_id →
     verification_tokens d !! token_id = Some t →
     is_outstanding user_id t = true → now' <= Token.expires_at t →
     Token.status <$>
       verification_tokens
         (exec (handle_redirect decode_url_safe now' (Some encrypted)) d')
         !! token_id
     = Some in_progress).
Proof.
  cbv zeta.
  assert (verification_tokens (exec (invalidate_user_tokens now user_id) d)
          = expire_if_outstanding now user_id <$> verification_tokens d) as Htok
    by (unfold invalidate_user_tokens; run; done).
  assert (∀ now' token_id, fst (eval (validate_token now' token_id user_id)
            (exec (invalidate_user_tokens now user_id) d)) = false) as Hown.
  { intros now' token_id.
    unfold validate_token, get_verification_token. run. rewrite Htok, lookup_fmap.
    destruct (verification_tokens d !! token_id) as [t|]; cbn; [|done].
    rewrite expire_if_outstanding_owner.
    case_bool_decide as Hu; [done|].
    destruct (expire_if_outstanding_terminal now user_id t Hu) as [Hip _].
    repeat case_bool_decide; done. }
  split.
  { intros now' token_id t presenter Ht Hu.
    destruct (decide (presenter = user_id)) as [->|Hp]; [apply Hown|].
    unfold validate_token, get_verification_token. run.
    rewrite Htok, lookup_fmap, Ht. cbn. rewrite expire_if_outstanding_owner.
    by rewrite bool_decide_eq_true_2 by congruence. }
  split; [exact Hown|].
  split; [|split; [done|split; [|split; [done|]]]]; cycle 2.
  { intros decode_url_safe encrypted now' token_id t Hne Hdec Ht Hout Hle.
    assert (∃ t', verification_tokens
                    (exec (invalidate_user_tokens now user_id) d) !! token_id
                  = Some t' ∧
                  Token.status t' = expired ∧
                  Token.expires_at t' = Token.expires_at t)
      as (t' & Ht' & Hst & Hexp).
    { eexists. rewrite Htok, lookup_fmap, Ht. cbn. split; [done|].
      unfold expire_if_outstanding. by rewrite Hout. }
    generalize dependent (exec (invalidate_user_tokens now user_id) d).
    intros d' _ _ Ht'.
    unfold handle_redirect, truthy, get_verification_token,
      mark_token_in_progress, update_token_status.
    rewrite (bool_decide_eq_true_2 (encrypted ≠ "")) by done. cbn.
    rewrite Hdec. run. rewrite Ht'. cbn.
    rewrite (bool_decide_eq_false_2 (Token.expires_at t' < now')) by lia.
    rewrite Hst.
    rewrite (bool_decide_eq_false_2 (expired = completed)) by done. cbn.
    rewrite Ht'. cbn. by rewrite lookup_insert_eq. }
  - intros now'. unfold has_user_pending_token. run. rewrite Htok.
    apply not_true_is_false. intros Hex.
    apply existsb_exists in Hex as (t & Hin & Hlive).
    apply list_elem_of_In, documents_elem in Hin as (k & Hk).
    rewrite lookup_fmap in Hk.
    destruct (verification_tokens d !! k) as [t0|]; [|done].
    cbn in Hk. injection Hk as <-.
    unfold is_live_pending in Hlive.
    apply andb_true_iff in Hlive as [Hlive _].
    apply andb_true_iff in Hlive as [Hu Hp].
    apply bool_decide_eq_true_1 in Hu, Hp.
    rewrite expire_if_outstanding_owner in Hu.
    by destruct (expire_if_outstanding_terminal now user_id t0 Hu) as [_ Hnp].
  - intros token_id t Ht Hcase. rewrite Htok, lookup_fmap, Ht. cbn.
    unfold expire_if_outstanding, is_outstanding.
    destruct Hcase as [Hu | [Hs | Hs]].
    + by rewrite (bool_decide_eq_false_2 (Token.user_id t = user_id)).
    + rewrite Hs. by rewrite andb_false_intro2.
    + rewrite Hs. by rewrite andb_false_intro2.
Qed.

(** X7.  [cleanup_expired_tokens] with a non-negative retention never
    touches a token that has not expired: such a token is still stored,
    unchanged; every token that remains is one that was stored; and the
    verdict of [validate_token] on any token is the same before and after
    apart from the reason ([token_not_found] for a purged one). *)
Theorem cleanup_expired_tokens_keeps_live_tokens now hours d :
  0 <= hours →
  let d' := exec (cleanup_expired_tokens now hours) d in
  (∀ token_id t, verification_tokens d !! token_id = Some t →
     now <= Token.expires_at t → verification_tokens d' !! token_id = Some t) ∧
  (∀ token_id t, verification_tokens d' !! token_id = Some t →
     verification_tokens d !! token_id = Some t) ∧
  (∀ token_id user_id,
     fst (eval (validate_token now token_id user_id) d')
     = fst (eval (validate_token now token_id user_id) d)) ∧
  users_verification d' = users_verification d.
Proof.
  intros Hh d'. subst d'. unfold cleanup_expired_tokens, Datetime.add.
  assert (0 <= Datetime.hours hours) as Hpos
    by (unfold Datetime.hours, Datetime.microseconds_per_second; lia).
  pose proof (bson_le (now + - Datetime.hours hours)) as Hcut.
  case_bool_decide as Hrange; run; cbn.
  - assert (∀ token_id t, verification_tokens d !! token_id = Some t →
              now <= Token.expires_at t →
              filter (λ kt : string * Token.doc,
                        ¬ Token.expires_at kt.2
                          < Datetime.bson (now + - Datetime.hours hours))
                (verification_tokens d) !! token_id = Some t) as Hkeep.
    { intros k t Ht Hlive. apply map_lookup_filter_Some. split; [done|]. cbn. lia. }
    repeat split; [done | | ].
    + intros k t Hk. by apply map_lookup_filter_Some in Hk as [? _].
    + intros k u. unfold validate_token, get_verification_token. run.
      destruct (verification_tokens d !! k) as [t|] eqn:Ht.
      * destruct (decide (now <= Token.expires_at t)) as [Hlive|Hdead].
        -- by rewrite (Hkeep _ _ Ht Hlive).
        -- destruct (filter _ _ !! k) as [t'|] eqn:Hf; cbn.
           ++ apply map_lookup_filter_Some in Hf as [Hf _].
              rewrite Ht in Hf. by injection Hf as <-.
           ++ case_bool_decide; [done|].
              by rewrite (bool_decide_eq_true_2 (Token.expires_at t < now)) by lia.
      * by rewrite (proj2 (map_lookup_filter_None _ _ _) (or_introl Ht)).
  - repeat split; auto.
Qed.

Lemma cleanup_expired_tokens_keeps_live_tokens_witness :
  let d := token_db (example_token "abc" in_progress (T 1000) (T 1010) (T 1600)) in
  let d' := exec (cleanup_expired_tokens (T 1500) 24) d in
  0 <= 24 ∧
  (∀ token_id t, verification_tokens d !! token_id = Some t →
     T 1500 <= Token.expires_at t → verification_tokens d' !! token_id = Some t) ∧
  (∀ token_id t, verification_tokens d' !! token_id = Some t →
     verification_tokens d !! token_id = Some t) ∧
  (∀ token_id user_id,
     fst (eval (validate_token (T 1500) token_id user_id) d')
     = fst (eval (validate_token (T 1500) token_id user_id) d)) ∧
  users_verification d' = users_verification d.
Proof.
  cbv zeta. split; [lia|].
  apply (cleanup_expired_tokens_keeps_live_tokens (T 1500) 24). lia.
Defined.

(** X8.  [delete_user_tokens] removes exactly the tokens of the user: no
    token of the user remains, so none validates; every token of another
    user is still stored, unchanged; and the returned count is the number
    of the user's tokens. *)
Theorem delete_user_tokens_removes_exactly_the_users user_id d :
  let d' := exec (delete_user_tokens user_id) d in
  (∀ token_id t, verification_tokens d' !! token_id = Some t →
     Token.user_id t ≠ user_id ∧ verification_tokens d !! token_id = Some t) ∧
  (∀ token_id t, verification_tokens d !! token_id = Some t →
     Token.user_id t ≠ user_id → verification_tokens d' !! token_id = Some t) ∧
  (∀ now token_id,
     fst (eval (validate_token now token_id user_id) d') = false) ∧
  outstanding_tokens user_id d' = 0%nat ∧
  eval (delete_user_tokens user_id) d
    = length (filter (λ t, Token.user_id t = user_id)
                (documents (verification_tokens d))).
Proof.
  cbv zeta. unfold delete_user_tokens. run. cbn.
  assert (∀ k t, filter (λ kt : string * Token.doc, Token.user_id kt.2 ≠ user_id)
                   (verification_tokens d) !! k = Some t →
                 Token.user_id t ≠ user_id ∧ verification_tokens d !! k = Some t)
    as Hin by (intros k t Hk; by apply map_lookup_filter_Some in Hk as [? ?]).
  split; [exact Hin|]. split.
  { intros k t Ht Hu. by apply map_lookup_filter_Some. }
  split.
  { intros now k. unfold validate_token, get_verification_token. run.
    destruct (filter _ _ !! k) as [t|] eqn:Hk; cbn; [|done].
    apply Hin in Hk as [Hu _]. by rewrite bool_decide_eq_true_2. }
  split; [|done].
  unfold outstanding_tokens. cbn.
  assert (∀ l : list Token.doc,
            Forall (λ t, Token.user_id t ≠ user_id) l →
            length (filter (λ t, is_outstanding user_id t = true) l) = 0%nat)
    as Hnone.
  { induction 1 as [|t l Hu _ IH]; [done|].
    rewrite filter_cons_False; [done|]. unfold is_outstanding.
    by rewrite (bool_decide_eq_false_2 (Token.user_id t = user_id)). }
  apply Hnone, Forall_forall. intros t Ht.
  apply documents_elem in Ht as (k & Hk). by apply Hin in Hk as [Hu _].
Qed.

(** X9.  A token that [validate_token] accepts passes every other validity
    check of the repository at the same instant: [is_token_valid], not
    [is_token_expired], [check_token_status] = "in_progress",
    [check_token_eligibility] and the server's
    [validate_verification_token] for the same user. *)
Theorem accepted_token_passes_every_validity_check now token_id user_id d :
  fst (eval (validate_token now token_id user_id) d) = true →
  eval (is_token_valid now token_id) d = true ∧
  eval (is_token_expired now token_id) d = false ∧
  eval (check_token_status now token_id) d = "in_progress" ∧
  eval (check_token_eligibility now token_id) d = (true, "eligible") ∧
  eval (validate_verification_token now token_id (Some user_id)) d = (true, "valid") ∧
  eval (detect_bypass_attempt now token_id user_id) d
    ∈ [(false, "valid"); (true, "state_change_too_fast")].
Proof.
  intros Hacc. apply validate_token_accepts_iff in Hacc as (t & Ht & Hu & Hs & He & Hc).
  unfold is_token_valid, is_token_expired, check_token_status,
    check_token_eligibility, validate_verification_token, detect_bypass_attempt,
    check_token_timing, validate_token_state, is_token_valid,
    get_verification_token, Datetime.elapsed_lt.
  run. rewrite Ht. cbn. rewrite Hs. cbn.
  rewrite !(bool_decide_eq_false_2 (Token.expires_at t < now)) by lia.
  rewrite (bool_decide_eq_false_2 (Token.user_id t ≠ user_id)) by tauto.
  rewrite (bool_decide_eq_false_2 (now - Token.created_at t < Datetime.seconds 5))
    by lia.
  rewrite !(bool_decide_eq_false_2 (in_progress ∉ [pending; in_progress]))
    by (intros Hn; apply Hn; rewrite !elem_of_cons; auto).
  cbn. rewrite andb_false_r.
  repeat split.
  rewrite (bool_decide_eq_false_2 (in_progress = completed)) by done.
  rewrite (bool_decide_eq_false_2 (in_progress ≠ in_progress))
    by (intros Hn; by apply Hn).
  case_bool_decide; cbn; rewrite !elem_of_cons; auto.
Qed.

Lemma accepted_token_passes_every_validity_check_witness :
  let d := token_db (example_token "abc" in_progress (T 1000) (T 1010) (T 1600)) in
  fst (eval (validate_token (T 1021) "abc" 42) d) = true ∧
  eval (is_token_valid (T 1021) "abc") d = true ∧
  eval (is_token_expired (T 1021) "abc") d = false ∧
  eval (check_token_status (T 1021) "abc") d = "in_progress" ∧
  eval (check_token_eligibility (T 1021) "abc") d = (true, "eligible") ∧
  eval (validate_verification_token (T 1021) "abc" (Some 42)) d = (true, "valid") ∧
  eval (detect_bypass_attempt (T 1021) "abc" 42) d
    ∈ [(false, "valid"); (true, "state_change_too_fast")].
Proof.
  cbv zeta. split; [reflexivity|].
  apply (accepted_token_passes_every_validity_check (T 1021) "abc" 42). reflexivity.
Defined.

Lemma status_not_in_pending_in_progress (s : token_status) :
  bool_decide (s ∉ [pending; in_progress])
  = match s with pending | in_progress => false | _ => true end.
Proof. by destruct s; vm_compute. Qed.

(** X10.  [check_token_eligibility] answers eligible exactly for a stored
    token within its lifetime whose status is [pending] or [in_progress];
    its fallback reason "validation_failed" is never produced, and the
    check writes nothing. *)
Theorem check_token_eligibility_decision now token_id d :
  (eval (check_token_eligibility now token_id) d = (true, "eligible") ↔
   ∃ t, verification_tokens d !! token_id = Some t ∧
        now <= Token.expires_at t ∧
        (Token.status t = pending ∨ Token.status t = in_progress)) ∧
  snd (eval (check_token_eligibility now token_id) d) ≠ "validation_failed" ∧
  exec (check_token_eligibility now token_id) d = d.
Proof.
  unfold check_token_eligibility, is_token_valid, get_verification_token. run.
  destruct (verification_tokens d !! token_id) as [t|] eqn:Ht; cbn.
  - rewrite status_not_in_pending_in_progress.
    destruct (decide (Token.expires_at t < now)) as [He|He].
    + rewrite !(bool_decide_eq_true_2 (Token.expires_at t < now)) by done. cbn.
      rewrite Ht. cbn.
      rewrite !(bool_decide_eq_true_2 (Token.expires_at t < now)) by done.
      repeat split; try done. intros (t' & [= <-] & ? & _). lia.
    + rewrite !(bool_decide_eq_false_2 (Token.expires_at t < now)) by done.
      destruct (Token.status t) eqn:Hs; cbn; rewrite ?Ht; cbn;
        rewrite ?(bool_decide_eq_false_2 (Token.expires_at t < now)) by done;
        rewrite ?Hs; cbn; repeat split; try done.
      all: try (intros _; exists t; repeat split; [lia | auto]).
      all: intros (t' & [= <-] & _ & [Hc|Hc]); congruence.
  - rewrite Ht. cbn. repeat split; try done. by intros (? & ? & _).
Qed.

(** ** Users: what the gates read and what the writes store *)

(** X11.  Every gate that reads the user's record through
    [get_user_by_id] answers as if there were none, on every database,
    also for a user whose record is stored, verified, unexpired and
    below the quota: [check_verification] and
    [check_verification_eligibility] answer [user_not_found],
    [check_file_access_limit] answers [(False, 0)] and
    [can_verify_again] answers [new_user]; none of them writes. *)
Theorem user_gates_find_no_record now user_id limit d :
  get_user_by_id user_id d = (None, d) ∧
  check_verification now user_id d = ((false, "user_not_found"), d) ∧
  check_file_access_limit user_id limit d = ((false, 0), d) ∧
  check_verification_eligibility now user_id d = ((false, "user_not_found"), d) ∧
  can_verify_again now user_id d = ((true, "new_user"), d).
Proof. by repeat split. Qed.

(** X2.  The two existence checks of [users.py] hold of everyone:
    [is_user_verified] and [user_has_accessed_file] answer [True] for
    every user, post, instant and database, the empty one included, and
    write nothing.  So [is_user_verified] and [check_verification]
    disagree on every user. *)
Theorem existence_checks_hold_of_everyone now user_id post_no d :
  is_user_verified now user_id d = (true, d) ∧
  user_has_accessed_file user_id post_no d = (true, d) ∧
  is_user_verified now user_id empty_db = (true, empty_db) ∧
  eval (is_user_verified now user_id) d
    ≠ fst (eval (check_verification now user_id) d).
Proof. by repeat split. Qed.

(** X18.  [extend_verification] never extends and [can_resend_file] never
    allows: both answer [False] for every user and write nothing, whatever
    the record holds. *)
Theorem extend_verification_never_extends now user_id hours post_no d :
  extend_verification now user_id hours d = (false, d) ∧
  can_resend_file user_id post_no d = (false, d).
Proof. by repeat split. Qed.

Lemma mark_lapsed_not_lapsed now stamp u :
  verification_lapsed now (mark_lapsed now stamp u) = false.
Proof.
  unfold mark_lapsed. destruct (verification_lapsed now u) eqn:H;
    [by unfold verification_lapsed|].
  by rewrite H.
Qed.

Lemma mark_lapsed_can_access_file now stamp now' limit u :
  Datetime.bson now <= now' →
  model_can_access_file now' limit (mark_lapsed now stamp u)
  = model_can_access_file now' limit u.
Proof.
  intros Hnow. unfold mark_lapsed, verification_lapsed.
  destruct (User.is_verified u) eqn:Hv; cbn; [|done].
  destruct (User.expires_at u) as [e|] eqn:He; cbn; [|done].
  case_bool_decide; [|done].
  unfold model_can_access_file, model_is_expired. cbn. rewrite Hv, He. cbn.
  by rewrite (bool_decide_eq_true_2 (now' > e)) by lia.
Qed.

(** X12.  [cleanup_expired_verifications] rewrites exactly the users whose
    verification had lapsed at the instant of the filter: it clears their
    [is_verified] and stamps [updated_at], keeps every user's counters
    and dates, adds and removes no user, and touches no token and no
    file.  Afterwards no stored user is verified and past [expires_at],
    and the record-level gate [can_access_file] of the model class
    answers as before for every user.  The function reports 0 users
    updated whatever it rewrote. *)
Theorem cleanup_expired_verifications_unverifies_the_lapsed now stamp d :
  let d' := exec (cleanup_expired_verifications now stamp) d in
  eval (cleanup_expired_verifications now stamp) d = 0%nat ∧
  (∀ user_id u, users_verification d !! user_id = Some u →
     ∃ u', users_verification d' !! user_id = Some u' ∧
           User.files_accessed_count u' = User.files_accessed_count u ∧
           User.files_accessed u' = User.files_accessed u ∧
           User.verified_at u' = User.verified_at u ∧
           User.expires_at u' = User.expires_at u ∧
           (verification_lapsed now u = false → u' = u) ∧
           (verification_lapsed now u = true →
            User.is_verified u' = false ∧
            User.updated_at u' = Some (Datetime.bson stamp)) ∧
           (∀ now' limit, Datetime.bson now <= now' →
              model_can_access_file now' limit u'
              = model_can_access_file now' limit u)) ∧
  (∀ user_id, users_verification d !! user_id = None →
     users_verification d' !! user_id = None) ∧
  (∀ user_id u', users_verification d' !! user_id = Some u' →
     verification_lapsed now u' = false) ∧
  verification_tokens d' = verification_tokens d ∧
  files d' = files d.
Proof.
  cbv zeta.
  assert (users_verification (exec (cleanup_expired_verifications now stamp) d)
          = mark_lapsed now stamp <$> users_verification d) as Hu by done.
  split; [done|]. split; [|split; [|split; [|done]]].
  - intros uid u Hlook. rewrite Hu, lookup_fmap, Hlook. cbn.
    eexists. split; [done|].
    split; [|split; [|split; [|split; [|split; [|split]]]]].
    5: { intros Hl. unfold mark_lapsed. by rewrite Hl. }
    5: { intros Hl. unfold mark_lapsed. by rewrite Hl. }
    5: { intros now' limit Hn. by apply mark_lapsed_can_access_file. }
    all: unfold mark_lapsed; by destruct (verification_lapsed now u).
  - intros uid Hnone. by rewrite Hu, lookup_fmap, Hnone.
  - intros uid u'. rewrite Hu, lookup_fmap.
    destruct (users_verification d !! uid) as [u|]; cbn; [|done].
    intros [= <-]. apply mark_lapsed_not_lapsed.
Qed.

(** ** The two delivery paths *)

Lemma serve_finds_no_file requests d :
  serve requests d = ((λ _, FILE_NOT_FOUND) <$> requests, d).
Proof.
  induction requests as [|r requests IH]; [done|].
  cbn [serve]. unfold bind.
  rewrite send_file_to_user_finds_no_file. by rewrite IH.
Qed.

(** X13.  The download handler never delivers.  For every gateway,
    instant, user, post and database, [send_file_to_user] of
    [download.py] replies "File not found" and writes nothing, also when
    the file and the user are on record and the user is below the quota;
    and a run of such requests is answered that way throughout and
    leaves the database as it was. *)
Theorem send_file_to_user_never_delivers gw now user_id post_no requests d :
  send_file_to_user gw now user_id post_no d = (FILE_NOT_FOUND, d) ∧
  serve requests d = ((λ _, FILE_NOT_FOUND) <$> requests, d) ∧
  deliveries_to user_id requests (eval (serve requests) d) = 0.
Proof.
  split; [done|]. split; [apply serve_finds_no_file|].
  unfold eval. rewrite serve_finds_no_file. cbn [fst].
  induction requests as [|r requests IH]; [done|]. cbn.
  rewrite bool_decide_eq_false_2 by (by intros [_ ?]). by rewrite IH.
Qed.

Lemma elem_of_addToSet (y x : Z) (l : list Z) :
  y ∈ addToSet x l ↔ y = x ∨ y ∈ l.
Proof.
  unfold addToSet. case_bool_decide.
  - split; [by right|]. by intros [->|].
  - rewrite elem_of_app, list_elem_of_singleton. tauto.
Qed.

(** X30.  [increment_user_file_access] counts every call.  On a stored
    user it adds one to [files_accessed_count] whether or not the post
    was already in [files_accessed], has the post in [files_accessed]
    afterwards (appended when it was new, the list unchanged when it was
    not), stamps [last_access] and leaves the verification as it was; on
    a user without a record it writes nothing; no other user, token or
    file changes; and it returns [False] in every case. *)
Theorem increment_user_file_access_counts_every_call now user_id post_no d :
  let d' := exec (increment_user_file_access now user_id post_no) d in
  eval (increment_user_file_access now user_id post_no) d = false ∧
  (∀ u, users_verification d !! user_id = Some u →
     ∃ u', users_verification d' !! user_id = Some u' ∧
           User.files_accessed_count u' = User.files_accessed_count u + 1 ∧
           post_no ∈ User.files_accessed u' ∧
           (post_no ∈ User.files_accessed u →
            User.files_accessed u' = User.files_accessed u) ∧
           (post_no ∉ User.files_accessed u →
            User.files_accessed u' = (User.files_accessed u ++ [post_no])%list) ∧
           User.last_access u' = Datetime.bson now ∧
           User.is_verified u' = User.is_verified u ∧
           User.expires_at u' = User.expires_at u) ∧
  (users_verification d !! user_id = None → d' = d) ∧
  (∀ other, other ≠ user_id →
     users_verification d' !! other = users_verification d !! other) ∧
  verification_tokens d' = verification_tokens d ∧
  files d' = files d.
Proof.
  cbv zeta. unfold eval, exec. rewrite increment_user_file_access_spec.
  cbn [fst snd]. split; [done|]. split; [|split; [|split; [|done]]].
  - intros u Hu. cbn. rewrite lookup_alter_eq, Hu. cbn.
    eexists. split; [done|]. cbn.
    split; [done|]. split; [apply elem_of_addToSet; by left|].
    split; [apply addToSet_present|]. split; [apply addToSet_absent|]. done.
  - apply set_users_alter_missing.
  - intros other Ho. cbn. by rewrite lookup_alter_ne.
Qed.

Lemma set_files_alter_missing post_no f d :
  files d !! post_no = None → set_files (alter f post_no) d = d.
Proof.
  intros Hf. destruct d as [us ts fs ss]. unfold set_files. cbn in *.
  f_equal. apply map_eq. intros k. destruct (decide (k = post_no)) as [->|Hk].
  - by rewrite lookup_alter_eq, Hf.
  - by rewrite lookup_alter_ne.
Qed.

(** X14.  The delivery of the file manager, a library function that no
    handler calls, has no gate and counts even when it fails.  When the
    document is not sent it writes nothing and returns [False].  Once the document is sent, whatever the user's
    counter, verification and expiry, it adds one to the user's
    [files_accessed_count] and to the file's [download_count]; it does so
    also when the warning message could not be sent, in which case it
    returns [False]. *)
Theorem file_manager_delivery_counts_without_a_gate
    gw now user_id post_no d u f :
  users_verification d !! user_id = Some u →
  files d !! post_no = Some f →
  let delivery := FileManager.send_file_to_user gw now user_id post_no in
  (FileManager.send_document_ok gw = false → delivery d = (false, d)) ∧
  (FileManager.send_document_ok gw = true →
   eval delivery d = FileManager.warning_sent gw ∧
   users_verification (exec delivery d) !! user_id
     = Some (record_file_access now post_no u) ∧
   User.files_accessed_count (record_file_access now post_no u)
     = User.files_accessed_count u + 1 ∧
   files (exec delivery d) !! post_no = Some (record_download now f) ∧
   File.download_count (record_download now f) = File.download_count f + 1 ∧
   verification_tokens (exec delivery d) = verification_tokens d).
Proof.
  intros Hu Hf. cbv zeta. unfold FileManager.send_file_to_user. split.
  - intros Hs. unfold FileManager.send_file_with_autodelete. by rewrite Hs.
  - intros Hs. unfold eval, exec.
    rewrite (send_file_with_autodelete_sent _ _ _ _ _ Hs). cbn.
    by rewrite !lookup_alter_eq, Hu, Hf.
Qed.

(** A user at the quota, with a lapsed verification, whose warning
    message fails: the file is sent and counted. *)
Lemma file_manager_delivery_counts_without_a_gate_witness :
  let u := example_user 3 [7; 8; 9] in
  let d := example_db u [7; 11] ∅ in
  let gw := FileManager.mkgw true false in
  let delivery := FileManager.send_file_to_user gw (T 90000) 42 11 in
  users_verification d !! 42 = Some u ∧
  files d !! 11 = Some (example_file 11) ∧
  (FileManager.send_document_ok gw = false → delivery d = (false, d)) ∧
  (FileManager.send_document_ok gw = true →
   eval delivery d = FileManager.warning_sent gw ∧
   users_verification (exec delivery d) !! 42
     = Some (record_file_access (T 90000) 11 u) ∧
   User.files_accessed_count (record_file_access (T 90000) 11 u)
     = User.files_accessed_count u + 1 ∧
   files (exec delivery d) !! 11 = Some (record_download (T 90000) (example_file 11)) ∧
   File.download_count (record_download (T 90000) (example_file 11))
     = File.download_count (example_file 11) + 1 ∧
   verification_tokens (exec delivery d) = verification_tokens d).
Proof.
  cbv zeta. split; [reflexivity|]. split; [reflexivity|].
  apply (file_manager_delivery_counts_without_a_gate
           (FileManager.mkgw true false) (T 90000) 42 11
           (example_db (example_user 3 [7; 8; 9]) [7; 11] ∅)
           (example_user 3 [7; 8; 9]) (example_file 11)); reflexivity.
Defined.

(** ** Well-formed databases *)

Lemma preserves_ret {A} (a : A) : preserves (ret a).
Proof. by intros d. Qed.

Lemma preserves_bind {A B} (c : M A) (k : A → M B) :
  preserves c → (∀ a, preserves (k a)) → preserves (bind c k).
Proof.
  intros Hc Hk d Hd. unfold exec, bind. specialize (Hc d Hd). unfold exec in Hc.
  destruct (c d) as [a d1]. by apply Hk.
Qed.

Lemma preserves_read_only {A} (c : M A) : (∀ d, exec c d = d) → preserves c.
Proof. intros H d Hd. by rewrite H. Qed.

Lemma addToSet_NoDup x l : NoDup l → NoDup (addToSet x l).
Proof.
  intros Hl. unfold addToSet. case_bool_decide; [done|].
  apply NoDup_app. split; [done|]. split; [|apply NoDup_singleton].
  intros y Hy Hx. apply list_elem_of_singleton in Hx as ->. done.
Qed.

Lemma addToSet_length x l : (length (addToSet x l) <= S (length l))%nat.
Proof.
  unfold addToSet. case_bool_decide; [lia|]. rewrite length_app. cbn. lia.
Qed.

Lemma user_ok_record_file_access k now post_no u :
  user_ok k u → user_ok k (record_file_access now post_no u).
Proof.
  intros (Hk & Hnd & Hlen & Hv). repeat split; cbn; try done.
  - by apply addToSet_NoDup.
  - pose proof (addToSet_length post_no (User.files_accessed u)). lia.
  - by apply Hv.
  - by apply Hv.
Qed.

Lemma user_ok_set_verification k a b c vb u :
  user_ok k u → user_ok k (set_verification a b c vb u).
Proof.
  intros (Hk & _). repeat split; cbn; try done; [apply NoDup_nil_2 | by eexists..].
Qed.

Lemma user_ok_clear_verification k now u :
  user_ok k u → user_ok k (clear_verification now u).
Proof. intros (Hk & Hnd & Hlen & _). by repeat split. Qed.

Lemma user_ok_clear_file_limit k now u :
  user_ok k u → user_ok k (clear_file_limit now u).
Proof.
  intros (Hk & _ & _ & Hv). repeat split; cbn; try done;
    [apply NoDup_nil_2 | by apply Hv..].
Qed.

Lemma user_ok_set_expiry k now e u :
  user_ok k u → user_ok k (set_expiry now e u).
Proof.
  intros (Hk & Hnd & Hlen & Hv). repeat split; cbn; try done; [by apply Hv|].
  destruct e; [by eexists | by apply Hv].
Qed.

Lemma user_ok_mark_lapsed k now stamp u :
  user_ok k u → user_ok k (mark_lapsed now stamp u).
Proof.
  intros Hok. unfold mark_lapsed. destruct (verification_lapsed now u); [|done].
  destruct Hok as (Hk & Hnd & Hlen & _). by repeat split.
Qed.

(** An update of one user's document that keeps the document well
    formed keeps the database well formed. *)
Lemma preserves_update_one_user_unawaited user_id f :
  (∀ u, user_ok user_id u → user_ok user_id (f u)) →
  preserves (update_one_user_unawaited user_id f).
Proof.
  intros Hf d [Hu Ht]. split; [|done]. cbn.
  intros k u'. destruct (decide (k = user_id)) as [->|Hk].
  - rewrite lookup_alter_eq.
    destruct (users_verification d !! user_id) as [u|] eqn:Hlook; [|done].
    intros [= <-]. apply Hf. by apply (Hu user_id u).
  - rewrite lookup_alter_ne by done. apply Hu.
Qed.

Lemma preserves_update_one_user user_id f :
  (∀ u, user_ok user_id u → user_ok user_id (f u)) →
  preserves (update_one_user user_id f).
Proof.
  intros Hf. unfold update_one_user. apply preserves_bind;
    [by apply preserves_update_one_user_unawaited | intros ?; apply preserves_ret].
Qed.

Lemma preserves_create_user now user_id username first_name :
  preserves (create_user now user_id username first_name).
Proof. by apply preserves_read_only. Qed.

Lemma preserves_verify_user_manually now user_id hours verified_by :
  preserves (verify_user_manually now user_id hours verified_by).
Proof.
  intros d Hd. unfold exec. rewrite verify_user_manually_spec. cbn [snd].
  destruct (Datetime.add _ _) as [e|]; [|done].
  apply (preserves_update_one_user_unawaited user_id
           (set_verification now e now verified_by)); [|done].
  intros u. apply user_ok_set_verification.
Qed.

Lemma preserves_increment_user_file_access now user_id post_no :
  preserves (increment_user_file_access now user_id post_no).
Proof.
  apply (preserves_update_one_user user_id (record_file_access now post_no)).
  intros u. apply user_ok_record_file_access.
Qed.

Lemma preserves_increment_download_count now post_no :
  preserves (increment_download_count now post_no).
Proof. by intros d [Hu Ht]. Qed.

Lemma preserves_cleanup_expired_verifications now stamp :
  preserves (cleanup_expired_verifications now stamp).
Proof.
  intros d [Hu Ht]. split; [|done]. cbn. apply map_Forall_fmap.
  intros k u Hk. apply user_ok_mark_lapsed. by apply (Hu k u).
Qed.

Lemma preserves_delete_user user_id : preserves (delete_user user_id).
Proof.
  intros d [Hu Ht]. split; [|done]. cbn. by apply map_Forall_delete.
Qed.

Lemma token_ok_set_status k now status c t :
  token_ok k t → token_ok k (set_status now status c t).
Proof.
  intros (Hk & Hc). split; cbn; [done|].
  intros ->. destruct c; [by eexists|].
  rewrite bool_decide_eq_true_2 by done. by eexists.
Qed.

Lemma preserves_update_token_status now token_id status c :
  preserves (update_token_status now token_id status c).
Proof.
  intros d [Hu Ht]. unfold update_token_status. run.
  destruct (verification_tokens d !! token_id) as [t|] eqn:Hlook; [|done].
  split; [done|]. cbn. apply map_Forall_insert_2; [|done].
  apply token_ok_set_status. by apply (Ht token_id t).
Qed.

Lemma preserves_create_verification_token now token_id user_id expiry :
  preserves (create_verification_token now token_id user_id expiry).
Proof.
  intros d [Hu Ht]. unfold exec. rewrite create_verification_token_spec.
  destruct (Datetime.add _ _); [|done].
  split; [done|]. cbn. apply map_Forall_insert_2; [|done]. by split.
Qed.

Lemma preserves_invalidate_user_tokens now user_id :
  preserves (invalidate_user_tokens now user_id).
Proof.
  intros d [Hu Ht]. unfold invalidate_user_tokens. run. split; [done|]. cbn.
  apply map_Forall_fmap. intros k t Hk. specialize (Ht k t Hk).
  unfold compose, expire_if_outstanding.
  destruct (is_outstanding user_id t); [|done].
  destruct Ht as (Hkey & _). by split.
Qed.

Lemma preserves_delete_verification_token token_id :
  preserves (delete_verification_token token_id).
Proof.
  intros d [Hu Ht]. unfold delete_verification_token. run. split; [done|]. cbn.
  by apply map_Forall_delete.
Qed.

Lemma preserves_cleanup_expired_tokens now hours :
  preserves (cleanup_expired_tokens now hours).
Proof.
  unfold cleanup_expired_tokens.
  destruct (Datetime.add _ _) as [cutoff|]; [|by intros d].
  intros d [Hu Ht]. run. split; [done|]. cbn.
  intros k t Hk. apply map_lookup_filter_Some in Hk as [Hk _]. by apply (Ht k t).
Qed.

Lemma preserves_delete_user_tokens user_id : preserves (delete_user_tokens user_id).
Proof.
  intros d [Hu Ht]. unfold delete_user_tokens. run. split; [done|]. cbn.
  intros k t Hk. apply map_lookup_filter_Some in Hk as [Hk _]. by apply (Ht k t).
Qed.

Create HintDb preserves.
#[local] Hint Resolve preserves_ret preserves_create_user
  preserves_verify_user_manually preserves_increment_user_file_access
  preserves_increment_download_count preserves_cleanup_expired_verifications
  preserves_delete_user preserves_create_verification_token
  preserves_update_token_status
  preserves_invalidate_user_tokens preserves_delete_verification_token
  preserves_cleanup_expired_tokens preserves_delete_user_tokens : preserves.

(** Splits a handler into its calls. *)
Ltac preserve :=
  repeat first
    [ solve [auto with preserves]
    | apply preserves_update_one_user; intros ? ?
    | apply preserves_read_only; reflexivity
    | match goal with
      | |- preserves (match ?x with _ => _ end) => destruct x
      | |- preserves (if ?x then _ else _) => destruct x
      | |- preserves (let '(_, _) := ?x in _) => destruct x
      end
    | apply preserves_bind; [|intros ?] ].

Lemma perform_preserves env op d : db_ok d → db_ok (perform env op d).
Proof.
  revert d. change (preserves (λ d, (tt, perform env op d))).
  destruct op; cbn [perform];
    match goal with
    | |- preserves (λ d, (tt, exec ?c d)) =>
        enough (preserves c) as Hc by (intros d Hd; apply (Hc d Hd))
    end.
  - preserve.
  - preserve.
  - preserve.
  - unfold unverify_user. preserve. by apply user_ok_clear_verification.
  - unfold reset_user_file_limit. preserve. by apply user_ok_clear_file_limit.
  - preserve.
  - preserve.
  - preserve.
  - unfold reset_verification, unverify_user, reset_user_file_limit. preserve.
    + by apply user_ok_clear_verification.
    + by apply user_ok_clear_file_limit.
  - unfold update_user_verification. preserve. by apply user_ok_set_expiry.
  - preserve.
  - unfold FileManager.send_file_with_autodelete. preserve.
  - preserve.
  - preserve.
  - unfold mark_token_in_progress. preserve.
  - unfold mark_token_completed. preserve.
  - unfold mark_token_expired. preserve.
  - preserve.
  - preserve.
  - preserve.
  - preserve.
  - unfold handle_verify_now, get_user_by_id, get_setting_value, get_setting.
    preserve.
  - unfold handle_redirect, get_verification_token, mark_token_in_progress.
    preserve.
  - unfold handle_verification_callback, get_verification_token,
      mark_token_completed, get_setting_value, get_setting. preserve.
  - unfold complete_verification, get_verification_token, mark_token_completed.
    preserve.
Qed.

(** X15.  The modelled calls of the users and tokens modules keep the
    stored records well formed.  Starting from a well-formed database,
    after any sequence, in any order and with any arguments, of
    [create_user], [verify_user_manually], [increment_user_file_access],
    [unverify_user], [reset_user_file_limit], [extend_verification],
    [cleanup_expired_verifications], [delete_user], [reset_verification],
    [update_user_verification] called with an expiry or none and no
    further fields, the delivery of the download handler and that of the
    file manager, [create_verification_token], [update_token_status] with
    any of the four statuses and any completion time, its three wrappers,
    [invalidate_user_tokens], [delete_verification_token],
    [delete_user_tokens], [cleanup_expired_tokens], [handle_verify_now],
    the landing route, [handle_verification_callback] and
    [complete_verification]: every user is stored under its own id, its
    [files_accessed] has no duplicates and is no longer than
    [files_accessed_count], and a verified user has both [verified_at]
    and [expires_at]; every token is stored under its own id, and a
    [completed] token has its [completed_at].  [update_user] and the
    further fields of [update_user_verification], which store whatever
    the caller passes, are not among these calls. *)
Theorem reachable_databases_are_well_formed env ops d :
  db_ok d → db_ok (perform_all env ops d).
Proof.
  revert d. unfold perform_all.
  induction ops as [|op ops IH]; intros d Hd; [done|].
  cbn. apply IH. by apply perform_preserves.
Qed.

Lemma reachable_databases_are_well_formed_witness :
  let env := mkenv int_24 decode_abc 600 24 in
  let ops := [HandleVerifyNow (T 1000) "abc" None 42;
              HandleRedirect (T 1010) (Some "YWJj");
              HandleVerificationCallback (T 1021) "abc" 42;
              SendFileToUser gateway_ok (T 1030) 42 7;
              SendFileWithAutodelete (FileManager.mkgw true true) (T 1040) 42 7;
              SendFileWithAutodelete (FileManager.mkgw true false) (T 1700) 42 7;
              UpdateTokenStatus (T 1800) "abc" pending None;
              CleanupExpiredTokens (T 90000) 24] in
  let d := example_db unverified_user [7; 8] ∅ in
  db_ok d ∧ db_ok (perform_all env ops d).
Proof.
  cbv zeta.
  assert (db_ok (example_db unverified_user [7; 8] ∅)) as Hd.
  { split; cbn; [|apply map_Forall_empty].
    apply map_Forall_singleton. split; [reflexivity|]. split.
    - refine (bool_decide_unpack _ _). vm_compute. exact I.
    - split; [vm_compute; discriminate | discriminate]. }
  split; [exact Hd|].
  apply (reachable_databases_are_well_formed
           (mkenv int_24 decode_abc 600 24)
           [HandleVerifyNow (T 1000) "abc" None 42;
            HandleRedirect (T 1010) (Some "YWJj");
            HandleVerificationCallback (T 1021) "abc" 42;
            SendFileToUser gateway_ok (T 1030) 42 7;
            SendFileWithAutodelete (FileManager.mkgw true true) (T 1040) 42 7;
            SendFileWithAutodelete (FileManager.mkgw true false) (T 1700) 42 7;
            UpdateTokenStatus (T 1800) "abc" pending None;
            CleanupExpiredTokens (T 90000) 24]).
  exact Hd.
Defined.

(** ** Asking for a new verification *)


Lemma reset_verification_spec t1 t2 t3 user_id d :
  reset_verification t1 t2 t3 user_id d
  = (false,
     exec (invalidate_user_tokens t3 user_id)
       (set_users (alter (clear_file_limit t2) user_id)
          (set_users (alter (clear_verification t1) user_id) d))).
Proof.
  unfold reset_verification, unverify_user, reset_user_file_limit, exec.
  unfold bind at 1. rewrite update_one_user_spec.
  unfold bind at 1. rewrite update_one_user_spec.
  unfold bind at 1. by destruct (invalidate_user_tokens _ _ _).
Qed.

(** X17.  [reset_verification] resets a stored user's record and
    reports failure.  Afterwards the stored record is not verified, has
    no dates, a zero counter and an empty [files_accessed]; the user
    holds no outstanding token; no other user changes; and the call
    returns [False]. *)
Theorem reset_verification_resets_and_reports_failure t1 t2 t3 user_id d u :
  users_verification d !! user_id = Some u →
  let d' := exec (reset_verification t1 t2 t3 user_id) d in
  eval (reset_verification t1 t2 t3 user_id) d = false ∧
  users_verification d' !! user_id
    = Some (clear_file_limit t2 (clear_verification t1 u)) ∧
  (∃ u', users_verification d' !! user_id = Some u' ∧
         User.is_verified u' = false ∧ User.verified_at u' = None ∧
         User.expires_at u' = None ∧ User.files_accessed_count u' = 0 ∧
         User.files_accessed u' = []) ∧
  outstanding_tokens user_id d' = 0%nat ∧
  (∀ other, other ≠ user_id →
     users_verification d' !! other = users_verification d !! other).
Proof.
  intros Hu. cbv zeta. unfold eval, exec at 1 2 3 4.
  rewrite reset_verification_spec. cbn [fst snd].
  set (d2 := set_users _ (set_users _ d)).
  assert (users_verification (exec (invalidate_user_tokens t3 user_id) d2)
          = users_verification d2) as ->
    by (unfold invalidate_user_tokens; run; done).
  assert (users_verification d2 !! user_id
          = Some (clear_file_limit t2 (clear_verification t1 u))) as Hu2.
  { subst d2. cbn. by rewrite !lookup_alter_eq, Hu. }
  split; [done|]. split; [done|]. split.
  { eexists. split; [exact Hu2|]. by repeat split. }
  split; [apply invalidate_user_tokens_outstanding|].
  intros other Ho. subst d2. cbn. by rewrite !lookup_alter_ne.
Qed.

Lemma reset_verification_resets_and_reports_failure_witness :
  let d := example_db (example_user 3 [7; 8; 9]) [7] ∅ in
  let d' := exec (reset_verification (T 5000) (T 5000) (T 5001) 42) d in
  users_verification d !! 42 = Some (example_user 3 [7; 8; 9]) ∧
  eval (reset_verification (T 5000) (T 5000) (T 5001) 42) d = false ∧
  users_verification d' !! 42
    = Some (clear_file_limit (T 5000)
              (clear_verification (T 5000) (example_user 3 [7; 8; 9]))) ∧
  (∃ u', users_verification d' !! 42 = Some u' ∧
         User.is_verified u' = false ∧ User.verified_at u' = None ∧
         User.expires_at u' = None ∧ User.files_accessed_count u' = 0 ∧
         User.files_accessed u' = []) ∧
  outstanding_tokens 42 d' = 0%nat ∧
  (∀ other, other ≠ 42 →
     users_verification d' !! other = users_verification d !! other).
Proof.
  cbv zeta. split; [reflexivity|].
  apply (reset_verification_resets_and_reports_failure
           (T 5000) (T 5000) (T 5001) 42
           (example_db (example_user 3 [7; 8; 9]) [7] ∅)
           (example_user 3 [7; 8; 9])).
  reflexivity.
Defined.

(** ** The verification flow end to end *)

(** X19.  The verification flow, step by step, on every database.  The
    user taps Verify Now at [t0]: the bot stores a new [pending] token and
    answers "Verification service not configured".  When the landing
    route is then asked for that token at [t1], no later than the stored
    expiry, it redirects to the countdown page; the countdown page at
    [t1'] renders the deep link [verify-<token>]; the callback at [t2],
    at least five seconds after the stored creation time and no later
    than the stored expiry, answers with the success screen and leaves
    the token [completed] at [t2].  A user with a stored record is
    thereby verified from [t2] until 24 hours later (both at the store's
    resolution) with a zero counter and an empty [files_accessed]; a user
    without a stored record still has none; no other user changes. *)
Theorem verification_flow_end_to_end
    py_int decode_url_safe encode_url_safe bot expiry
    t0 t1 t1' t2 token_id encrypted link user_id d0 expires_at verified_until :
  verification_tokens d0 !! token_id = None →
  encrypted ≠ "" → decode_url_safe encrypted = Some token_id →
  py_int "24" = Some 24 →
  Datetime.add t0 (Datetime.seconds expiry) = Some expires_at →
  t1 <= Datetime.bson expires_at →
  t1' <= Datetime.bson expires_at →
  Datetime.bson t0 + Datetime.seconds 5 <= t2 <= Datetime.bson expires_at →
  Datetime.add t2 (Datetime.hours 24) = Some verified_until →
  let d1 := exec (handle_verify_now expiry t0 token_id link user_id) d0 in
  let d2 := exec (handle_redirect decode_url_safe t1 (Some encrypted)) d1 in
  let d3 := exec (handle_verification_callback py_int t2 token_id user_id) d2 in
  eval (handle_verify_now expiry t0 token_id link user_id) d0
    = SERVICE_NOT_CONFIGURED ∧
  verification_tokens d1 !! token_id
    = Some (token_doc t0 token_id user_id expires_at) ∧
  eval (handle_redirect decode_url_safe t1 (Some encrypted)) d1
    = redirect ("/verify?token=" ++ encrypted) ∧
  verification_page decode_url_safe encode_url_safe bot t1' (Some encrypted) d2
    = (verify_html
         (build_deep_link bot (encode_url_safe ("verify-" ++ token_id))) 5, d2) ∧
  eval (handle_verification_callback py_int t2 token_id user_id) d2
    = VERIFIED_SUCCESS_TEMPLATE ∧
  (∃ t, verification_tokens d3 !! token_id = Some t ∧
        Token.status t = completed ∧
        Token.completed_at t = Some (Datetime.bson t2)) ∧
  users_verification d3
    = alter (set_verification t2 verified_until t2 (Some 0)) user_id
        (users_verification d0) ∧
  (∀ u, users_verification d0 !! user_id = Some u →
     ∃ u', users_verification d3 !! user_id = Some u' ∧
           User.is_verified u' = true ∧
           User.verified_at u' = Some (Datetime.bson t2) ∧
           User.expires_at u' = Some (Datetime.bson verified_until) ∧
           User.files_accessed_count u' = 0 ∧ User.files_accessed u' = []) ∧
  (users_verification d0 !! user_id = None →
   users_verification d3 !! user_id = None) ∧
  (∀ other, other ≠ user_id →
     users_verification d3 !! other = users_verification d0 !! other).
Proof.
  intros Hfresh Hne Hdec Hint He Ht1 Ht1' [Ht2 Ht2'] Hv d1 d2 d3.
  set (tok0 := token_doc t0 token_id user_id expires_at).
  (* Verify Now *)
  assert (d1 = set_tokens (insert token_id tok0) d0) as Hd1.
  { subst d1. unfold exec. rewrite handle_verify_now_spec. unfold exec.
    by rewrite create_verification_token_spec, He. }
  assert (verification_tokens d1 !! token_id = Some tok0) as Htok1
    by (rewrite Hd1; cbn; apply lookup_insert_eq).
  (* the landing route *)
  set (tok1 := set_status t1 in_progress None tok0).
  assert (handle_redirect decode_url_safe t1 (Some encrypted) d1
          = (redirect ("/verify?token=" ++ encrypted),
             set_tokens (insert token_id tok1) d1)) as Hred.
  { unfold handle_redirect, truthy, get_verification_token,
      mark_token_in_progress, update_token_status.
    rewrite (bool_decide_eq_true_2 (encrypted ≠ "")) by done. cbn.
    rewrite Hdec. run. rewrite Htok1. cbn.
    rewrite (bool_decide_eq_false_2 (Datetime.bson expires_at < t1)) by lia.
    rewrite (bool_decide_eq_false_2 (pending = completed)) by done.
    cbn. by rewrite Htok1. }
  assert (d2 = set_tokens (insert token_id tok1) d1) as Hd2
    by (subst d2; unfold exec; by rewrite Hred).
  assert (verification_tokens d2 !! token_id = Some tok1) as Htok2
    by (rewrite Hd2; cbn; apply lookup_insert_eq).
  (* the callback *)
  assert (fst (eval (validate_token t2 token_id user_id) d2) = true) as Hacc.
  { apply validate_token_accepts_iff. exists tok1. split; [done|].
    repeat split; cbn; lia. }
  pose proof (handle_verification_callback_accepts py_int _ _ _ _ Hacc) as Hcb.
  cbv zeta in Hcb. unfold eval at 1 in Hcb.
  rewrite get_setting_value_default in Hcb. cbn [fst mbind option_bind] in Hcb.
  rewrite Hint in Hcb.
  set (d2' := exec (mark_token_completed t2 token_id) d2) in Hcb.
  assert (d2' = set_tokens
                  (insert token_id (set_status t2 completed (Some t2) tok1)) d2)
    as Hd2'.
  { subst d2'. unfold mark_token_completed, update_token_status. run.
    by rewrite Htok2. }
  assert (d3 = set_users
                 (alter (set_verification t2 verified_until t2 (Some 0)) user_id)
                 d2') as Hd3.
  { subst d3. unfold exec at 1. rewrite Hcb. unfold exec.
    by rewrite verify_user_manually_spec, Hv. }
  assert (users_verification d3
          = alter (set_verification t2 verified_until t2 (Some 0)) user_id
              (users_verification d0)) as Hus
    by (rewrite Hd3, Hd2', Hd2, Hd1; done).
  split; [unfold eval; by rewrite handle_verify_now_spec|].
  split; [done|].
  split; [unfold eval; by rewrite Hred|]. split.
  { unfold verification_page, truthy, get_verification_token.
    rewrite (bool_decide_eq_true_2 (encrypted ≠ "")) by done. cbn.
    rewrite Hdec. run. rewrite Htok2. cbn.
    by rewrite (bool_decide_eq_false_2 (Datetime.bson expires_at < t1')) by lia. }
  split; [unfold eval; by rewrite Hcb|]. split.
  { eexists. split; [rewrite Hd3, Hd2'; cbn; apply lookup_insert_eq|]. done. }
  split; [done|]. rewrite Hus. split; [|split].
  - intros u Hu. eexists. rewrite lookup_alter_eq, Hu. cbn. by repeat split.
  - intros Hu. by rewrite lookup_alter_eq, Hu.
  - intros other Ho. by rewrite lookup_alter_ne.
Qed.

Lemma verification_flow_end_to_end_witness :
  let d0 := example_db unverified_user [7] {[ "verification_period_hours" := "48" ]} in
  let d1 := exec (handle_verify_now 600 (T 1000) "abc" (Some "https://sho.rt/x") 42) d0 in
  let d2 := exec (handle_redirect decode_abc (T 1010) (Some "YWJj")) d1 in
  let d3 := exec (handle_verification_callback int_of_setting (T 1021) "abc" 42) d2 in
  verification_tokens d0 !! "abc" = None ∧
  "YWJj" ≠ "" ∧ decode_abc "YWJj" = Some "abc" ∧
  int_of_setting "24" = Some 24 ∧
  Datetime.add (T 1000) (Datetime.seconds 600) = Some (T 1600) ∧
  T 1010 <= Datetime.bson (T 1600) ∧
  T 1015 <= Datetime.bson (T 1600) ∧
  Datetime.bson (T 1000) + Datetime.seconds 5 <= T 1021 <= Datetime.bson (T 1600) ∧
  Datetime.add (T 1021) (Datetime.hours 24) = Some (T 87421) ∧
  eval (handle_verify_now 600 (T 1000) "abc" (Some "https://sho.rt/x") 42) d0
    = SERVICE_NOT_CONFIGURED ∧
  verification_tokens d1 !! "abc" = Some (token_doc (T 1000) "abc" 42 (T 1600)) ∧
  eval (handle_redirect decode_abc (T 1010) (Some "YWJj")) d1
    = redirect ("/verify?token=" ++ "YWJj") ∧
  verification_page decode_abc (λ s, s) "filebot" (T 1015) (Some "YWJj") d2
    = (verify_html (build_deep_link "filebot" ("verify-" ++ "abc")) 5, d2) ∧
  eval (handle_verification_callback int_of_setting (T 1021) "abc" 42) d2
    = VERIFIED_SUCCESS_TEMPLATE ∧
  (∃ t, verification_tokens d3 !! "abc" = Some t ∧
        Token.status t = completed ∧
        Token.completed_at t = Some (Datetime.bson (T 1021))) ∧
  users_verification d3
    = alter (set_verification (T 1021) (T 87421) (T 1021) (Some 0)) 42
        (users_verification d0) ∧
  (∀ u, users_verification d0 !! 42 = Some u →
     ∃ u', users_verification d3 !! 42 = Some u' ∧
           User.is_verified u' = true ∧
           User.verified_at u' = Some (Datetime.bson (T 1021)) ∧
           User.expires_at u' = Some (Datetime.bson (T 87421)) ∧
           User.files_accessed_count u' = 0 ∧ User.files_accessed u' = []) ∧
  (users_verification d0 !! 42 = None → users_verification d3 !! 42 = None) ∧
  (∀ other, other ≠ 42 →
     users_verification d3 !! other = users_verification d0 !! other).
Proof.
  cbv zeta.
  assert (T 1010 <= Datetime.bson (T 1600)) as H3 by (vm_compute; discriminate).
  assert (T 1015 <= Datetime.bson (T 1600)) as H4 by (vm_compute; discriminate).
  assert (Datetime.bson (T 1000) + Datetime.seconds 5 <= T 1021
          <= Datetime.bson (T 1600)) as H5 by (vm_compute; split; discriminate).
  split; [reflexivity|]. split; [discriminate|]. split; [reflexivity|].
  split; [reflexivity|]. split; [reflexivity|].
  split; [exact H3|]. split; [exact H4|]. split; [exact H5|].
  split; [reflexivity|].
  apply (verification_flow_end_to_end int_of_setting decode_abc (λ s, s)
           "filebot" 600 (T 1000) (T 1010) (T 1015) (T 1021) "abc" "YWJj"
           (Some "https://sho.rt/x") 42
           (example_db unverified_user [7]
              {[ "verification_period_hours" := "48" ]})
           (T 1600) (T 87421));
    first [reflexivity | discriminate | assumption].
Defined.

(** X20.  A verification callback touches nothing but the caller's user
    record and the presented token: every other user and every other token
    is as before, files and settings are unchanged, and presenting a token
    that belongs to somebody else changes nothing at all. *)
Theorem callback_touches_only_its_user_and_token py_int now token_id user_id d :
  let d' := exec (handle_verification_callback py_int now token_id user_id) d in
  (∀ other, other ≠ user_id →
     users_verification d' !! other = users_verification d !! other) ∧
  (∀ other, other ≠ token_id →
     verification_tokens d' !! other = verification_tokens d !! other) ∧
  files d' = files d ∧ admin_settings d' = admin_settings d ∧
  (∀ t, verification_tokens d !! token_id = Some t →
        Token.user_id t ≠ user_id → d' = d).
Proof.
  cbv zeta.
  destruct (fst (eval (validate_token now token_id user_id) d)) eqn:Hv.
  - unfold exec at 1 2 3 4.
    rewrite (handle_verification_callback_accepts _ _ _ _ _ Hv). cbv zeta.
    destruct (mark_token_completed_frame now token_id d) as (Hmu & Hmf & Hms).
    assert (∀ other, other ≠ token_id →
              verification_tokens (exec (mark_token_completed now token_id) d)
                !! other = verification_tokens d !! other) as Hmt.
    { intros other Ho. unfold mark_token_completed, update_token_status. run.
      destruct (verification_tokens d !! token_id); cbn; [|done].
      by rewrite lookup_insert_ne. }
    apply validate_token_accepts_iff in Hv as (t & Ht & Hu & _).
    destruct (_ ≫= py_int) as [h|]; cbn [snd].
    + destruct (verify_user_manually_frame now user_id h (Some 0)
                  (exec (mark_token_completed now token_id) d))
        as (Hvt & Hvf & Hvs & Hvu).
      repeat split.
      * intros other Ho. by rewrite Hvu, Hmu.
      * intros other Ho. by rewrite Hvt, Hmt.
      * by rewrite Hvf.
      * by rewrite Hvs.
      * intros t' Ht' Hne. congruence.
    + repeat split; try done.
      * intros other Ho. by rewrite Hmu.
      * intros t' Ht' Hne. congruence.
  - destruct (handle_verification_callback_rejects py_int _ _ _ _ Hv) as [-> _].
    by repeat split.
Qed.

Lemma complete_verification_success period now data d :
  eval (complete_verification period now data) d = json "success" 200 →
  ∃ token_id user_id t,
    data = Some (Some token_id, Some user_id) ∧
    verification_tokens d !! token_id = Some t ∧
    Token.user_id t = user_id ∧ Token.status t ≠ completed ∧
    exec (complete_verification period now data) d
    = exec (verify_user_manually now user_id period (Some 0))
        (exec (mark_token_completed now token_id) d).
Proof.
  unfold complete_verification, get_verification_token.
  destruct data as [[token_id user_id]|]; [|done].
  destruct token_id as [token_id|]; [|done].
  destruct user_id as [user_id|]; [|by rewrite orb_true_r].
  cbn. do 2 (case_bool_decide; cbn; try done). run.
  destruct (verification_tokens d !! token_id) as [t|] eqn:Ht; cbn; [|done].
  do 2 (case_bool_decide; cbn; try done). intros _.
  exists token_id, user_id, t. repeat split; try done.
  rewrite Ht. run. by destruct (verify_user_manually _ _ _ _ _).
Qed.

Lemma complete_verification_unsuccessful period now data d :
  eval (complete_verification period now data) d ≠ json "success" 200 →
  exec (complete_verification period now data) d = d.
Proof.
  unfold complete_verification, get_verification_token.
  destruct data as [[token_id user_id]|]; [|done].
  destruct (negb _ || negb _); [done|]. run.
  destruct (verification_tokens d !! default "" token_id) as [t|] eqn:Ht;
    cbn; [|done].
  do 2 (case_bool_decide; cbn; try done).
  rewrite Ht. run. by destruct (verify_user_manually _ _ _ _ _).
Qed.

(** X21.  [complete_verification] acts only for the owner of a token and
    only once.  A success answer means the body named a stored token that
    belongs to the given user and was not completed; any other answer
    writes nothing; and after a success the same request, at any later
    time, is answered [already_completed] and writes nothing. *)
Theorem complete_verification_once_and_for_the_owner period now now' data d :
  let reply := eval (complete_verification period now data) d in
  let d' := exec (complete_verification period now data) d in
  (reply = json "success" 200 →
     ∃ token_id user_id t,
       data = Some (Some token_id, Some user_id) ∧
       verification_tokens d !! token_id = Some t ∧
       Token.user_id t = user_id ∧ Token.status t ≠ completed) ∧
  (reply ≠ json "success" 200 → d' = d) ∧
  (reply = json "success" 200 →
     complete_verification period now' data d' = (json "already_completed" 200, d')).
Proof.
  cbv zeta. split; [|split].
  - intros H. apply complete_verification_success in H
      as (token_id & user_id & t & ? & ? & ? & ? & _). by exists token_id, user_id, t.
  - apply complete_verification_unsuccessful.
  - intros H. pose proof H as H0. apply complete_verification_success in H
      as (token_id & user_id & t & -> & Ht & Hu & Hs & ->).
    destruct (verify_user_manually_frame now user_id period (Some 0)
                (exec (mark_token_completed now token_id) d)) as (Hvt & _).
    assert (verification_tokens
              (exec (verify_user_manually now user_id period (Some 0))
                 (exec (mark_token_completed now token_id) d)) !! token_id
            = Some (set_status now completed (Some now) t)) as Ht'.
    { rewrite Hvt. unfold mark_token_completed, update_token_status. run.
      rewrite Ht. cbn. apply lookup_insert_eq. }
    revert H0. unfold complete_verification at 1 2, get_verification_token. cbn.
    destruct (negb _ || negb _); [done|]. intros _. run. rewrite Ht'. cbn.
    by rewrite (bool_decide_eq_false_2 (Token.user_id t ≠ user_id)) by tauto.
Qed.

(** X22.  The countdown page is read-only and renders exactly for a token
    the request decodes to that is stored, [in_progress] and not past its
    [expires_at]; the link it then carries is the deep link of
    [verify-<token id>] with a five second countdown. *)
Theorem verification_page_decision
    decode_url_safe encode_url_safe bot now encrypted_token d url n :
  exec (verification_page decode_url_safe encode_url_safe bot now encrypted_token) d
    = d ∧
  (eval (verification_page decode_url_safe encode_url_safe bot now encrypted_token) d
     = verify_html url n ↔
   ∃ encrypted token_id t,
     encrypted_token = Some encrypted ∧ encrypted ≠ "" ∧
     decode_url_safe encrypted = Some token_id ∧
     verification_tokens d !! token_id = Some t ∧
     Token.status t = in_progress ∧ now <= Token.expires_at t ∧
     url = build_deep_link bot (encode_url_safe ("verify-" ++ token_id)) ∧ n = 5).
Proof.
  unfold verification_page, truthy, get_verification_token.
  destruct encrypted_token as [encrypted|]; cbn;
    [|split; [done|]; split; [done|]; by intros (? & ? & ? & ? & _)].
  case_bool_decide as Hne; cbn; cycle 1.
  { split; [done|]. split; [done|]. intros (? & ? & ? & [= <-] & ? & _). done. }
  destruct (decode_url_safe encrypted) as [token_id|] eqn:Hdec; cycle 1.
  { split; [done|]. split; [done|].
    intros (? & ? & ? & [= <-] & _ & ? & _). congruence. }
  run. destruct (verification_tokens d !! token_id) as [t|] eqn:Ht; cbn; cycle 1.
  { split; [done|]. split; [done|].
    intros (? & ? & ? & [= <-] & _ & ? & ? & _). congruence. }
  repeat case_bool_decide; cbn; (split; [done|]); split; try done.
  all: try (intros (e & k & t' & [= <-] & _ & Hd & Hk & Hs & He & _);
            rewrite Hdec in Hd; injection Hd as <-;
            rewrite Ht in Hk; injection Hk as <-;
            first [lia | congruence]).
  - intros [= <- <-]. exists encrypted, token_id, t.
    repeat split; try done. lia.
  - intros (e & k & t' & [= <-] & _ & Hd & Hk & Hs & He & -> & ->).
    rewrite Hdec in Hd. by injection Hd as <-.
Qed.

(** * The force-subscribe checks *)

Section ChannelLoops.
Context {A : Type} (p : A → bool).

Lemma filter_split_length (l : list A) :
  (length (filter (λ x, p x = true) l)
   + length (filter (λ x, p x = false) l))%nat = length l.
Proof.
  induction l as [|x l IH]; [done|].
  rewrite !filter_cons. destruct (p x); repeat case_decide; try done; cbn; lia.
Qed.

Lemma filter_false_nil (l : list A) :
  filter (λ x, p x = false) l = [] ↔ Forall (λ x, p x = true) l.
Proof.
  induction l as [|x l IH]; [by split; [constructor|]|].
  rewrite filter_cons, Forall_cons. destruct (p x); case_decide; try done.
  - rewrite IH. tauto.
  - split; [done|]. by intros [? _].
Qed.

(** The loop that collects the elements failing a check, in order. *)
Lemma foldl_collects_failures (f : list A → A → list A) (acc l : list A) :
  (∀ acc x, f acc x = if p x then acc else (acc ++ [x])%list) →
  foldl f acc l = (acc ++ filter (λ x, p x = false) l)%list.
Proof.
  intros Hf. revert acc. induction l as [|x l IH]; intros acc; cbn [foldl].
  - by rewrite app_nil_r.
  - rewrite IH, Hf, filter_cons. destruct (p x); case_decide; try done.
    by rewrite <- app_assoc.
Qed.

(** The loop that counts the passes and records one detail per element. *)
Lemma foldl_counts_and_details {B} (detail : A → B)
    (f : nat * list B → A → nat * list B) (n : nat) (ds : list B) (l : list A) :
  (∀ n ds x, f (n, ds) x
             = ((if p x then S n else n), (ds ++ [detail x])%list)) →
  foldl f (n, ds) l
  = ((n + length (filter (λ x, p x = true) l))%nat, (ds ++ (detail <$> l))%list).
Proof.
  intros Hf. revert n ds. induction l as [|x l IH]; intros n ds; cbn [foldl].
  - cbn. by rewrite Nat.add_0_r, app_nil_r.
  - rewrite Hf, IH, filter_cons, fmap_cons, <- app_assoc.
    destruct (p x); case_decide; try done; cbn; f_equal; lia.
Qed.

End ChannelLoops.

Lemma get_unsubscribed_channels_filter gm user_id channels :
  get_unsubscribed_channels gm user_id channels
  = let unsubscribed :=
      filter (λ channel,
                check_user_subscribed gm user_id (Channel.channel_id channel)
                  (Channel.channel_username channel) = false) channels in
    (bool_decide (length unsubscribed = 0%nat), unsubscribed).
Proof.
  unfold get_unsubscribed_channels. destruct channels as [|c l]; [done|].
  by rewrite (foldl_collects_failures
                (λ channel, check_user_subscribed gm user_id
                              (Channel.channel_id channel)
                              (Channel.channel_username channel))).
Qed.

(** X23.  [get_unsubscribed_channels] returns the active channels that
    fail [check_user_subscribed], in the order of the channel list, and
    reports full subscription exactly when every channel passes. *)
Theorem get_unsubscribed_channels_is_the_ordered_filter gm user_id channels :
  let is_subscribed channel :=
    check_user_subscribed gm user_id (Channel.channel_id channel)
      (Channel.channel_username channel) in
  (get_unsubscribed_channels gm user_id channels).2
    = filter (λ channel, is_subscribed channel = false) channels ∧
  ((get_unsubscribed_channels gm user_id channels).1 = true ↔
   Forall (λ channel, is_subscribed channel = true) channels).
Proof.
  cbv zeta. rewrite get_unsubscribed_channels_filter. cbn [fst snd].
  split; [done|].
  by rewrite bool_decide_eq_true, length_zero_iff_nil, filter_false_nil.
Qed.

(** X24.  The figures of [get_subscription_status_details] are consistent
    with each other and with [get_unsubscribed_channels]: the two counts
    add up to the number of channels (the subtraction never goes below
    zero), [not_subscribed] is the length of the unsubscribed list,
    [all_subscribed] is the verdict of [get_unsubscribed_channels], and
    there is one detail entry per channel, in order. *)
Theorem subscription_status_details_agree_with_unsubscribed_channels
    gm user_id channels :
  let status := get_subscription_status_details gm user_id channels in
  let unsubscribed := get_unsubscribed_channels gm user_id channels in
  total_channels status = length channels ∧
  (subscribed status + not_subscribed status)%nat = total_channels status ∧
  not_subscribed status = length unsubscribed.2 ∧
  all_subscribed status = unsubscribed.1 ∧
  channel_details status
  = (λ channel,
       mkdetail (Channel.channel_username channel) (Channel.button_text channel)
         (check_user_subscribed gm user_id (Channel.channel_id channel)
            (Channel.channel_username channel))
         (Channel.channel_link channel)) <$> channels.
Proof.
  cbv zeta. rewrite get_unsubscribed_channels_filter. cbn [fst snd].
  unfold get_subscription_status_details.
  destruct channels as [|c l]; [done|].
  set (p := λ channel, check_user_subscribed gm user_id
                         (Channel.channel_id channel)
                         (Channel.channel_username channel)).
  rewrite (foldl_counts_and_details p
             (λ channel, mkdetail (Channel.channel_username channel)
                           (Channel.button_text channel) (p channel)
                           (Channel.channel_link channel))) by done.
  cbn [total_channels subscribed not_subscribed all_subscribed channel_details
       Nat.add app].
  pose proof (filter_split_length p (c :: l)) as Hlen.
  subst p. cbn beta in *.
  split; [done|]. split; [lia|]. split; [lia|]. split; [|done].
  apply bool_decide_ext. lia.
Qed.

(** X25.  A user [is_user_banned] reports as banned from a channel is not
    subscribed to it, and the channel is in the unsubscribed list. *)
Theorem banned_user_is_reported_unsubscribed gm user_id channels channel :
  channel ∈ channels →
  is_user_banned gm user_id (Channel.channel_id channel)
    (Channel.channel_username channel) = true →
  check_user_subscribed gm user_id (Channel.channel_id channel)
    (Channel.channel_username channel) = false ∧
  channel ∈ (get_unsubscribed_channels gm user_id channels).2.
Proof.
  intros Hin Hban.
  assert (check_user_subscribed gm user_id (Channel.channel_id channel)
            (Channel.channel_username channel) = false) as Hsub.
  { revert Hban. unfold is_user_banned, check_user_subscribed.
    destruct (choose_identifier _ _) as [chat|]; [|done].
    destruct (gm chat user_id) as [status| |]; try done.
    rewrite bool_decide_eq_true. intros ->. by vm_compute. }
  split; [done|].
  rewrite get_unsubscribed_channels_filter. cbn [snd].
  by apply list_elem_of_filter.
Qed.

Lemma banned_user_is_reported_unsubscribed_witness :
  let gm : chat_identifier → Z → chat_member_result :=
    λ _ _, ChatMember "kicked" in
  let channel := Channel.mk (Some "news") "https://t.me/news" "News"
                   (Some (-1001)) 1 true in
  channel ∈ [channel] ∧
  is_user_banned gm 42 (Channel.channel_id channel)
    (Channel.channel_username channel) = true ∧
  check_user_subscribed gm 42 (Channel.channel_id channel)
    (Channel.channel_username channel) = false ∧
  channel ∈ (get_unsubscribed_channels gm 42 [channel]).2.
Proof.
  cbv zeta. split; [apply list_elem_of_here|]. split; [reflexivity|].
  apply (banned_user_is_reported_unsubscribed
           (λ _ _, ChatMember "kicked") 42
           [Channel.mk (Some "news") "https://t.me/news" "News" (Some (-1001)) 1 true]
           (Channel.mk (Some "news") "https://t.me/news" "News" (Some (-1001)) 1 true)).
  - apply list_elem_of_here.
  - reflexivity.
Defined.

(** ** The middleware's own force-subscribe check *)

(** The loop of the middleware's check: a generic exception leaves it, and
    otherwise it collects the channels answered [left], [kicked] or with a
    [TelegramError]. *)
Lemma middleware_loop_aborts
    (gm : middleware_chat → Z → chat_member_result) (user_id : Z) channels acc :
  Exists (λ channel, gm (middleware_chat_of channel) user_id = RaisesException)
    channels →
  foldl (λ acc channel,
           match acc with
           | None => None
           | Some unsubscribed =>
               match gm (middleware_chat_of channel) user_id with
               | ChatMember status =>
                   if bool_decide (status ∈ ["left"; "kicked"])
                   then Some (unsubscribed ++ [channel])%list
                   else Some unsubscribed
               | RaisesTelegramError => Some (unsubscribed ++ [channel])%list
               | RaisesException => None
               end
           end) acc channels = None.
Proof.
  intros Hex. revert acc.
  induction channels as [|c l IH]; intros acc; [by inversion Hex|].
  cbn [foldl]. destruct acc as [unsubscribed|]; cycle 1.
  { clear. induction l as [|c' l IH]; [done|]. by cbn [foldl]. }
  apply Exists_cons in Hex as [Hc|Hl].
  - rewrite Hc. clear. induction l as [|c' l IH]; [done|]. by cbn [foldl].
  - by apply IH.
Qed.

Lemma middleware_loop_collects
    (gm : middleware_chat → Z → chat_member_result) (user_id : Z) channels
    unsubscribed :
  Forall (λ channel, gm (middleware_chat_of channel) user_id ≠ RaisesException)
    channels →
  foldl (λ acc channel,
           match acc with
           | None => None
           | Some unsubscribed =>
               match gm (middleware_chat_of channel) user_id with
               | ChatMember status =>
                   if bool_decide (status ∈ ["left"; "kicked"])
                   then Some (unsubscribed ++ [channel])%list
                   else Some unsubscribed
               | RaisesTelegramError => Some (unsubscribed ++ [channel])%list
               | RaisesException => None
               end
           end) (Some unsubscribed) channels
  = Some (unsubscribed ++
          filter (λ channel,
                    match gm (middleware_chat_of channel) user_id with
                    | ChatMember status =>
                        bool_decide (status ∈ ["left"; "kicked"])
                    | RaisesTelegramError => true
                    | RaisesException => false
                    end = true) channels)%list.
Proof.
  intros Hall. revert unsubscribed.
  induction Hall as [|c l Hc _ IH]; intros unsubscribed; cbn [foldl].
  - by rewrite app_nil_r.
  - rewrite filter_cons.
    destruct (gm (middleware_chat_of c) user_id) as [status| |]; [| |done].
    + case_bool_decide; case_decide; try done; rewrite IH, <- ?app_assoc; done.
    + case_decide; [|done]. by rewrite IH, <- app_assoc.
Qed.

Lemma filter_ext_Forall {A} (P Q : A → Prop)
    `{!∀ x, Decision (P x)} `{!∀ x, Decision (Q x)} (l : list A) :
  Forall (λ x, P x ↔ Q x) l → filter P l = filter Q l.
Proof.
  induction 1 as [|x l Hx _ IH]; [done|].
  rewrite !filter_cons, IH. repeat case_decide; tauto || done.
Qed.

(** X26.  The middleware's [check_force_subscribe]: a generic exception
    from the gateway on any channel answers [(False, [])], dropping the
    channels collected so far; otherwise the answer lists, in order, the
    channels answered [left], [kicked] or with a [TelegramError]. *)
Theorem middleware_check_force_subscribe_decision
    (gm : middleware_chat → Z → chat_member_result) (user_id : Z) channels :
  let answer channel := gm (middleware_chat_of channel) user_id in
  let missing channel :=
    match answer channel with
    | ChatMember status => bool_decide (status ∈ ["left"; "kicked"])
    | RaisesTelegramError => true
    | RaisesException => false
    end in
  (Exists (λ channel, answer channel = RaisesException) channels →
   middleware_check_force_subscribe gm user_id channels = (false, [])) ∧
  (Forall (λ channel, answer channel ≠ RaisesException) channels →
   middleware_check_force_subscribe gm user_id channels
   = (bool_decide
        (length (filter (λ channel, missing channel = true) channels) = 0%nat),
      filter (λ channel, missing channel = true) channels)).
Proof.
  cbv zeta. unfold middleware_check_force_subscribe. split.
  - intros Hex. destruct channels as [|c l]; [by inversion Hex|].
    by rewrite middleware_loop_aborts.
  - intros Hall. destruct channels as [|c l]; [done|].
    by rewrite middleware_loop_collects.
Qed.

(** X27.  The two force-subscribe checks of the bot give the same answer
    when every channel carries a usable identifier and the gateway raises
    no generic exception on it: [check_force_subscribe] of the middleware
    and [get_unsubscribed_channels] differ only outside these cases. *)
Theorem force_subscribe_checks_agree
    (gm : chat_identifier → Z → chat_member_result)
    (gm' : middleware_chat → Z → chat_member_result) (user_id : Z) channels :
  (∀ i, gm' (inl i) user_id = gm (inl i) user_id) →
  (∀ s, gm' (inr (Some s)) user_id = gm (inr s) user_id) →
  Forall (λ channel,
            ∃ chat,
              choose_identifier (Channel.channel_id channel)
                (Channel.channel_username channel) = Some chat ∧
              gm chat user_id ≠ RaisesException) channels →
  middleware_check_force_subscribe gm' user_id channels
  = get_unsubscribed_channels gm user_id channels.
Proof.
  intros Hid Hname Hall.
  assert (Forall (λ channel,
            ∃ chat,
              choose_identifier (Channel.channel_id channel)
                (Channel.channel_username channel) = Some chat ∧
              gm' (middleware_chat_of channel) user_id = gm chat user_id ∧
              gm chat user_id ≠ RaisesException) channels) as Hall'.
  { eapply Forall_impl; [exact Hall|]. intros c (chat & Hchat & Hne).
    exists chat. split; [done|]. split; [|done].
    revert Hchat. unfold choose_identifier, middleware_chat_of, truthy.
    destruct (Channel.channel_id c) as [i|];
      destruct (Channel.channel_username c) as [s|]; cbn;
      repeat case_bool_decide; cbn; try done; intros [= <-]; auto. }
  rewrite get_unsubscribed_channels_filter. cbv zeta.
  unfold middleware_check_force_subscribe.
  destruct channels as [|c l]; [done|].
  rewrite middleware_loop_collects; cycle 1.
  { eapply Forall_impl; [exact Hall'|]. intros c' (chat & _ & -> & Hne). done. }
  cbn [app].
  rewrite (filter_ext_Forall _
             (λ channel,
                check_user_subscribed gm user_id (Channel.channel_id channel)
                  (Channel.channel_username channel) = false) (c :: l)); [done|].
  eapply Forall_impl; [exact Hall'|]. intros c' (chat & Hchat & -> & Hne).
  unfold check_user_subscribed. rewrite Hchat.
  destruct (gm chat user_id) as [status| |]; try done.
  rewrite bool_decide_eq_true, bool_decide_eq_false.
  destruct (decide (status ∈ ["left"; "kicked"])); tauto.
Qed.

Lemma force_subscribe_checks_agree_witness :
  let gm : chat_identifier → Z → chat_member_result :=
    λ chat _, match chat with
              | inl _ => ChatMember "left"
              | inr _ => ChatMember "member"
              end in
  let gm' : middleware_chat → Z → chat_member_result :=
    λ chat _, match chat with
              | inl _ => ChatMember "left"
              | inr _ => ChatMember "member"
              end in
  let channels :=
    [Channel.mk (Some "news") "https://t.me/news" "News" (Some (-1001)) 1 true;
     Channel.mk (Some "talk") "https://t.me/talk" "Talk" None 2 true] in
  (∀ i, gm' (inl i) 42 = gm (inl i) 42) ∧
  (∀ s, gm' (inr (Some s)) 42 = gm (inr s) 42) ∧
  Forall (λ channel,
            ∃ chat,
              choose_identifier (Channel.channel_id channel)
                (Channel.channel_username channel) = Some chat ∧
              gm chat 42 ≠ RaisesException) channels ∧
  middleware_check_force_subscribe gm' 42 channels
  = get_unsubscribed_channels gm 42 channels.
Proof.
  cbv zeta.
  assert (Forall (λ channel,
            ∃ chat,
              choose_identifier (Channel.channel_id channel)
                (Channel.channel_username channel) = Some chat ∧
              match chat with
              | inl _ => ChatMember "left"
              | inr _ => ChatMember "member"
              end ≠ RaisesException)
            [Channel.mk (Some "news") "https://t.me/news" "News" (Some (-1001)) 1 true;
             Channel.mk (Some "talk") "https://t.me/talk" "Talk" None 2 true])
    as Hall.
  { repeat constructor.
    - by exists (inl (-1001)).
    - by exists (inr "talk"). }
  split; [done|]. split; [done|]. split; [exact Hall|].
  apply (force_subscribe_checks_agree
           (λ chat _, match chat with
                      | inl _ => ChatMember "left"
                      | inr _ => ChatMember "member"
                      end)
           (λ chat _, match chat with
                      | inl _ => ChatMember "left"
                      | inr _ => ChatMember "member"
                      end) 42); [done|done|exact Hall].
Defined.

(** X28.  [validate_user_for_download] never answers [success].  It
    writes nothing; when the force-subscribe check of the middleware
    fails it answers [force_sub_failed] with the channels of that check,
    and otherwise [not_verified], whatever is stored about the user; on
    the list [get_active_channels] returns, which is empty, the answer
    is [not_verified]. *)
Theorem validate_user_for_download_never_succeeds
    (gm : middleware_chat → Z → chat_member_result) channels now user_id d :
  exec (validate_user_for_download gm channels now user_id) d = d ∧
  eval (validate_user_for_download gm channels now user_id) d
    = (if (middleware_check_force_subscribe gm user_id channels).1
       then (false, "not_verified", None)
       else (false, "force_sub_failed",
             Some (middleware_check_force_subscribe gm user_id channels).2)) ∧
  eval get_active_channels d = [] ∧
  eval (validate_user_for_download gm (eval get_active_channels d) now user_id) d
    = (false, "not_verified", None).
Proof.
  split; [|split; [|done]].
  - unfold validate_user_for_download.
    by destruct (middleware_check_force_subscribe gm user_id channels) as [[] ?].
  - unfold validate_user_for_download.
    by destruct (middleware_check_force_subscribe gm user_id channels) as [[] ?].
Qed.

(** * The bot-side verification helper *)

Lemma validate_token_reads_only_tokens now token_id user_id d d' :
  verification_tokens d' = verification_tokens d →
  validate_token now token_id user_id d'
  = (eval (validate_token now token_id user_id) d, d').
Proof.
  intros Ht. unfold validate_token, get_verification_token. run. by rewrite Ht.
Qed.

(** X29.  [verify_user] validates the token but never consumes it: the
    token collection (and the files and settings) are left as they were,
    so [validate_token] gives the same verdict after the call as before;
    no other user's record changes; and when the validation rejects, the
    call writes nothing and returns the rejection's reason. *)
Theorem verify_user_never_consumes_the_token
    py_int period now user_id token_id d :
  let d' := exec (verify_user py_int period now user_id token_id) d in
  verification_tokens d' = verification_tokens d ∧
  files d' = files d ∧
  admin_settings d' = admin_settings d ∧
  (∀ other, other ≠ user_id →
     users_verification d' !! other = users_verification d !! other) ∧
  (∀ now', validate_token now' token_id user_id d'
           = (eval (validate_token now' token_id user_id) d, d')) ∧
  ((eval (validate_token now token_id user_id) d).1 = false →
   verify_user py_int period now user_id token_id d
   = (eval (validate_token now token_id user_id) d, d)).
Proof.
  cbv zeta.
  assert (∃ h,
    exec (verify_user py_int period now user_id token_id) d = d ∨
    exec (verify_user py_int period now user_id token_id) d
    = exec (verify_user_manually now user_id h (Some 0)) d) as [h Hd].
  { exists period. unfold verify_user, verification_hours. run.
    rewrite (validate_token_reads_only_tokens now token_id user_id d d) by done.
    run. destruct (validate_token now token_id user_id d).1 as [[] reason];
      cbn; [|by left].
    right.
    by destruct (verify_user_manually now user_id period (Some 0) d) as [[] ?]. }
  assert (verification_tokens
            (exec (verify_user py_int period now user_id token_id) d)
          = verification_tokens d) as Ht.
  { destruct Hd as [->| ->]; [done|].
    by destruct (verify_user_manually_frame now user_id h (Some 0) d) as [? _]. }
  split; [done|].
  destruct (verify_user_manually_frame now user_id h (Some 0) d)
    as (_ & Hf & Hs & Hu).
  split; [by destruct Hd as [->| ->]|].
  split; [by destruct Hd as [->| ->]|].
  split; [by destruct Hd as [->| ->]|].
  split; [intros now'; by apply validate_token_reads_only_tokens|].
  unfold verify_user. run.
  rewrite (validate_token_reads_only_tokens now token_id user_id d d) by done.
  run. destruct (validate_token now token_id user_id d).1 as [[] reason]; cbn;
    [done|]. by intros _.
Qed.
